(** * Ordering agent: conversation orchestration, classification, final output

    A shallow embedding of the order-intake chatbot (agents.py,
    llm_manager.py, database.py) and the properties of its session
    state machine.

    Conventions of the embedding.
    - Python [str] values are [string]s whose characters are code points
      below 256 (Latin-1); [lower], [isspace] and the digit class are the
      interpreter's on that range.  The one literal of the program outside
      that range, the clipboard sign of the confirmation reply, is written
      as its UTF-8 bytes; it is only ever emitted, never inspected.
    - Python [int] is [Z]; [int(...)] of a digit run is exact (arbitrary
      precision, as in the language reference).
    - Python dicts are [gmap]s; the order dicts live in a store indexed by
      locations, because the agents and the context hold references to the
      same dict objects and mutate them in place.
    - What the outside world does during a turn (the completion backend,
      the LangChain executor, SQLite) is an explicit argument of the turn. *)

From Stdlib Require Import ZArith Ascii String List Lia.
From Stdlib Require Import DecimalString DecimalZ DecimalPos DecimalFacts.
From stdpp Require Import base option list strings gmap.

Local Open Scope string_scope.
Local Open Scope Z_scope.

(** ** Text primitives of the interpreter *)

Module Text.

Definition chr (n : nat) : ascii := ascii_of_nat n.
Definition dquote : ascii := chr 34.
Definition backslash : ascii := chr 92.
Definition newline : ascii := chr 10.
Definition nl : string := String newline EmptyString.
Definition code (c : ascii) : nat := nat_of_ascii c.

Definition between (lo hi n : nat) : bool := (lo <=? n)%nat && (n <=? hi)%nat.

(** [str.lower] on one code point: A-Z, and the Latin-1 capitals
    U+00C0..U+00DE without the multiplication sign U+00D7. *)
Definition is_upper (c : ascii) : bool :=
  between 65 90 (code c)
  || (between 192 222 (code c) && negb (code c =? 215)%nat).

Definition lower_char (c : ascii) : ascii :=
  if is_upper c then chr (code c + 32) else c.

Fixpoint lower (s : string) : string :=
  match s with
  | EmptyString => EmptyString
  | String c s' => String (lower_char c) (lower s')
  end.

(** The class [\d] of [re] on text: the decimal digits. *)
Definition is_digit (c : ascii) : bool := between 48 57 (code c).

(** [str.isspace] on one code point. *)
Definition is_space (c : ascii) : bool :=
  between 9 13 (code c) || between 28 32 (code c)
  || (code c =? 133)%nat || (code c =? 160)%nat.

(** [needle in hay] *)
Fixpoint contains (needle hay : string) : bool :=
  String.prefix needle hay
  || match hay with
     | EmptyString => false
     | String _ hay' => contains needle hay'
     end.

(** [needle] occurs in [hay] as a contiguous block. *)
Definition occurs (needle hay : string) : Prop :=
  exists pre post, hay = pre +:+ needle +:+ post.

(** The longest run of digits a text starts with. *)
Fixpoint digit_run (s : string) : string :=
  match s with
  | EmptyString => EmptyString
  | String c s' => if is_digit c then String c (digit_run s') else EmptyString
  end.

(** [re.search(r'(\d+)', s)]: [group(1)] of the leftmost match, if any. *)
Fixpoint search_digits (s : string) : option string :=
  match s with
  | EmptyString => None
  | String c s' =>
      if is_digit c then Some (String c (digit_run s')) else search_digits s'
  end.

Definition digit_value (c : ascii) : Z := Z.of_nat (code c) - 48.

Fixpoint int_of_digits_from (acc : Z) (s : string) : Z :=
  match s with
  | EmptyString => acc
  | String c s' => int_of_digits_from (10 * acc + digit_value c) s'
  end.

(** [int(m.group(1))] *)
Definition int_of_digits (s : string) : Z := int_of_digits_from 0 s.

(** The two lines [m = re.search(r'(\d+)', s)] and [int(m.group(1))]. *)
Definition first_integer (s : string) : option Z :=
  int_of_digits <$> search_digits s.

Definition has_digit (s : string) : bool :=
  existsb is_digit (list_ascii_of_string s).

Definition snoc (s : string) (c : ascii) : string :=
  s +:+ String c EmptyString.

Definition is_empty (s : string) : bool :=
  match s with EmptyString => true | _ => false end.

(** [s.split()]: the maximal runs of non-blank characters, [cur] being the
    run under way. *)
Fixpoint split_from (cur s : string) : list string :=
  match s with
  | EmptyString => if is_empty cur then [] else [cur]
  | String c s' =>
      if is_space c
      then (if is_empty cur then split_from EmptyString s'
            else cur :: split_from EmptyString s')
      else split_from (snoc cur c) s'
  end.

Definition split (s : string) : list string := split_from EmptyString s.

(** [sep.join(words)] *)
Fixpoint join (sep : string) (words : list string) : string :=
  match words with
  | [] => EmptyString
  | [w] => w
  | w :: ws => w +:+ sep +:+ join sep ws
  end.

Fixpoint lstrip (s : string) : string :=
  match s with
  | EmptyString => EmptyString
  | String c s' => if is_space c then lstrip s' else s
  end.

(** [s.strip()] *)
Definition strip (s : string) : string :=
  String.rev (lstrip (String.rev (lstrip s))).

(** [x in [a, b, ...]] on strings *)
Definition mem (x : string) (l : list string) : bool :=
  existsb (String.eqb x) l.

End Text.

(** ** llm_manager.py *)

Module LLM.
Import Text.

(** The chat clients [_initialize_llm] can build. *)
Inductive client := ChatOpenAI | ChatGoogleGenerativeAI | ChatGroq.

(** What [self.llm.invoke(messages)] followed by [response.content] does:
    an exception anywhere inside the [try], or a text. *)
Inductive reply :=
| Raises
| Content (text : string).

Definition bulk_keywords : list string :=
  [ "bulk"; "wholesale"; "reselling"; "business"; "company"; "office";
    "event"; "conference"; "marathon"; "onboarding"; "employee"; "team";
    "hundred"; "thousand"; "500"; "1000"; "large quantity"; "mass order" ].

Definition generic_keywords : list string :=
  [ "personal"; "home"; "individual"; "single"; "one"; "few"; "small";
    "desk"; "lamp"; "furniture"; "electronics"; "personal use" ].

(** [for keyword in keywords: if keyword in text: return ...] reaches its
    [return]. *)
Fixpoint any_keyword (keywords : list string) (text : string) : bool :=
  match keywords with
  | [] => false
  | keyword :: rest =>
      if contains keyword text then true else any_keyword rest text
  end.

Definition _rule_based_classification
    (description : string) (type_of_request : option string) : string :=
  let description_lower := lower description in
  if any_keyword bulk_keywords description_lower then "bulk"
  else if any_keyword generic_keywords description_lower then "generic"
  else
    match search_digits description with
    | Some group1 =>
        let quantity := int_of_digits group1 in
        if 100 <=? quantity then "bulk"
        else if quantity <=? 50 then "generic"
        else "generic"
    | None => "generic"
    end.

(** [classify_request]; [answer] is what the backend does if it is asked. *)
Definition classify_request (llm : option client) (answer : reply)
    (description : string) (type_of_request : option string) : string :=
  match llm with
  | None => _rule_based_classification description type_of_request
  | Some _ =>
      match answer with
      | Content text =>
          let result := lower (strip text) in
          if mem result ["generic"; "bulk"] then result
          else _rule_based_classification description type_of_request
      | Raises => _rule_based_classification description type_of_request
      end
  end.

End LLM.

(** ** Values held by the order dicts *)

Inductive value :=
| VStr (s : string)
| VInt (z : Z).

#[global] Instance value_eq_dec : EqDecision value.
Proof. solve_decision. Defined.

(** [str(v)], as an f-string interpolates it *)
Definition str_of_int (z : Z) : string := NilEmpty.string_of_int (Z.to_int z).

Definition str (v : value) : string :=
  match v with
  | VStr s => s
  | VInt z => str_of_int z
  end.

(** ** The json module, as far as the program uses it *)

Module Json.
Import Text.

Definition hex_digit (n : nat) : ascii :=
  if (n <? 10)%nat then chr (48 + n) else chr (87 + n).

(** ['\\u{0:04x}'.format(n)] for a code point below 256 *)
Definition u_escape (n : nat) : string :=
  String backslash
    (String "u" (String "0" (String "0"
      (String (hex_digit (n / 16)) (String (hex_digit (n mod 16)) EmptyString))))).

Definition short_escape (e : ascii) : string :=
  String backslash (String e EmptyString).

(** The replacement [py_encode_basestring_ascii] makes for one character:
    the table [ESCAPE_DCT], the [\u] form for what is left outside
    [' '..'~'], the character itself inside. *)
Definition encode_char (c : ascii) : string :=
  let n := code c in
  if (n =? 34)%nat then short_escape dquote
  else if (n =? 92)%nat then short_escape backslash
  else if (n =? 8)%nat then short_escape "b"
  else if (n =? 12)%nat then short_escape "f"
  else if (n =? 10)%nat then short_escape "n"
  else if (n =? 13)%nat then short_escape "r"
  else if (n =? 9)%nat then short_escape "t"
  else if between 32 126 n then String c EmptyString
  else u_escape n.

Fixpoint encode_body (s : string) : string :=
  match s with
  | EmptyString => EmptyString
  | String c s' => encode_char c +:+ encode_body s'
  end.

Definition encode_string (s : string) : string :=
  String dquote (encode_body s +:+ String dquote EmptyString).

Definition encode_value (v : value) : string :=
  match v with
  | VStr s => encode_string s
  | VInt z => str_of_int z
  end.

Definition encode_member (kv : string * value) : string :=
  encode_string kv.1 +:+ ": " +:+ encode_value kv.2.

(** [json.dumps(obj, indent=2)] for a dict of texts and integers, given as
    its items in insertion order. *)
Definition dumps_indent2 (items : list (string * value)) : string :=
  match items with
  | [] => "{}"
  | _ => "{" +:+ nl +:+ "  "
         +:+ join ("," +:+ nl +:+ "  ") (encode_member <$> items)
         +:+ nl +:+ "}"
  end.

(** What [dumps_indent2] writes after the first member. *)
Fixpoint tail_text (items : list (string * value)) : string :=
  match items with
  | [] => nl +:+ "}"
  | kv :: rest => "," +:+ nl +:+ "  " +:+ encode_member kv +:+ tail_text rest
  end.

(** *** Reading back: [json.loads] on objects of texts and integers *)

Definition hex_value (c : ascii) : option nat :=
  let n := code c in
  if between 48 57 n then Some (n - 48)%nat
  else if between 97 102 n then Some (n - 87)%nat
  else if between 65 70 n then Some (n - 55)%nat
  else None.

Definition unescape (e : ascii) : option ascii :=
  let n := code e in
  if (n =? 34)%nat then Some dquote
  else if (n =? 92)%nat then Some backslash
  else if (n =? 47)%nat then Some "/"%char
  else if (n =? 98)%nat then Some (chr 8)
  else if (n =? 102)%nat then Some (chr 12)
  else if (n =? 110)%nat then Some (chr 10)
  else if (n =? 114)%nat then Some (chr 13)
  else if (n =? 116)%nat then Some (chr 9)
  else None.

Definition push (c : ascii) (r : option (string * string)) : option (string * string) :=
  match r with
  | Some (t, rest) => Some (String c t, rest)
  | None => None
  end.

(** The scanner of a string literal, entered after the opening quote:
    the text and what follows the closing quote.  Code points from 256 up
    are outside the texts modelled here. *)
Fixpoint scan_string (s : string) : option (string * string) :=
  match s with
  | EmptyString => None
  | String c s' =>
      if (code c =? 34)%nat then Some (EmptyString, s')
      else if (code c =? 92)%nat then
        match s' with
        | EmptyString => None
        | String e s'' =>
            if (code e =? 117)%nat then
              match s'' with
              | String h1 (String h2 (String h3 (String h4 r))) =>
                  match hex_value h1, hex_value h2, hex_value h3, hex_value h4 with
                  | Some 0%nat, Some 0%nat, Some a, Some b =>
                      push (chr (16 * a + b)) (scan_string r)
                  | _, _, _, _ => None
                  end
              | _ => None
              end
            else
              match unescape e with
              | Some c' => push c' (scan_string s'')
              | None => None
              end
        end
      else if (code c <? 32)%nat then None
      else push c (scan_string s')
  end.

(** JSON white space *)
Definition is_ws (c : ascii) : bool :=
  let n := code c in
  (n =? 32)%nat || (n =? 9)%nat || (n =? 10)%nat || (n =? 13)%nat.

Fixpoint skip_ws (s : string) : string :=
  match s with
  | EmptyString => EmptyString
  | String c s' => if is_ws c then skip_ws s' else s
  end.

Definition is_minus (c : ascii) : bool := (code c =? 45)%nat.

(** The characters of an integer literal at the head of [s], and the rest. *)
Fixpoint number_run (s : string) : string * string :=
  match s with
  | EmptyString => (EmptyString, EmptyString)
  | String c s' =>
      if is_digit c || is_minus c
      then let '(tok, rest) := number_run s' in (String c tok, rest)
      else (EmptyString, s)
  end.

Definition all_digits (s : string) : bool :=
  forallb is_digit (list_ascii_of_string s).

(** [0] or a run of digits that does not start with [0] *)
Definition is_natural_literal (s : string) : bool :=
  match s with
  | EmptyString => false
  | String c s' =>
      if (code c =? 48)%nat then is_empty s' else is_digit c && all_digits s'
  end.

Definition is_integer_literal (s : string) : bool :=
  match s with
  | EmptyString => false
  | String c s' => if is_minus c then is_natural_literal s' else is_natural_literal s
  end.

(** A fraction or an exponent would make the number a float. *)
Definition starts_float_tail (s : string) : bool :=
  match s with
  | EmptyString => false
  | String c _ => (code c =? 46)%nat || (code c =? 101)%nat || (code c =? 69)%nat
  end.

(** A character that ends an integer literal without making it a float. *)
Definition ends_number (c : ascii) : bool :=
  negb (is_digit c || is_minus c)
  && negb ((code c =? 46)%nat || (code c =? 101)%nat || (code c =? 69)%nat).

Definition scan_value (s : string) : option (value * string) :=
  match s with
  | EmptyString => None
  | String c s' =>
      if (code c =? 34)%nat then
        match scan_string s' with
        | Some (t, rest) => Some (VStr t, rest)
        | None => None
        end
      else
        let '(tok, rest) := number_run s in
        if is_integer_literal tok && negb (starts_float_tail rest) then
          match NilEmpty.int_of_string tok with
          | Some d => Some (VInt (Z.of_int d), rest)
          | None => None
          end
        else None
  end.

Definition expect (c : nat) (s : string) : option string :=
  match s with
  | EmptyString => None
  | String c' s' => if (code c' =? c)%nat then Some s' else None
  end.

(** One member [key : value], entered at the key's opening quote. *)
Definition scan_member (s : string) : option ((string * value) * string) :=
  s1 ← expect 34 s;
  '(k, s2) ← scan_string s1;
  s3 ← expect 58 (skip_ws s2);
  '(v, s4) ← scan_value (skip_ws s3);
  Some ((k, v), s4).

(** The members after the first, up to the closing brace. *)
Fixpoint scan_members (fuel : nat) (s : string) : option (list (string * value) * string) :=
  match fuel with
  | O => None
  | S fuel' =>
      match skip_ws s with
      | String c s' =>
          if (code c =? 125)%nat then Some ([], s')
          else if (code c =? 44)%nat then
            '(kv, s1) ← scan_member (skip_ws s');
            '(kvs, s2) ← scan_members fuel' s1;
            Some (kv :: kvs, s2)
          else None
      | EmptyString => None
      end
  end.

Definition scan_object (s : string) : option (list (string * value) * string) :=
  s1 ← expect 123 (skip_ws s);
  match skip_ws s1 with
  | String c s' =>
      if (code c =? 125)%nat then Some ([], s')
      else
        '(kv, s2) ← scan_member (skip_ws s1);
        '(kvs, s3) ← scan_members (String.length s2) s2;
        Some (kv :: kvs, s3)
  | EmptyString => None
  end.

(** [json.loads(text)] when the document is such an object: its members in
    document order.  [None] stands for an error and for documents outside
    this fragment. *)
Definition loads (text : string) : option (list (string * value)) :=
  '(kvs, rest) ← scan_object text;
  if is_empty (skip_ws rest) then Some kvs else None.

End Json.

(** ** Dict objects and references to them *)

Module Store.

Abbreviation dict := (gmap string value).
Definition loc := nat.

(** The dict objects allocated so far; [next_loc] is the next fresh
    reference. *)
Record heap := Heap { objects : gmap loc dict; next_loc : loc }.

Definition empty : heap := Heap ∅ 0%nat.

Definition deref (h : heap) (l : loc) : dict := default ∅ (objects h !! l).

(** [{}] or a dict display: a new object *)
Definition alloc (d : dict) (h : heap) : loc * heap :=
  (next_loc h, Heap (<[next_loc h := d]> (objects h)) (S (next_loc h))).

(** [obj[k] = v] *)
Definition setitem (l : loc) (k : string) (v : value) (h : heap) : heap :=
  Heap (<[l := <[k := v]> (deref h l)]> (objects h)) (next_loc h).

(** [obj.update(d)] *)
Definition update (l : loc) (d : dict) (h : heap) : heap :=
  Heap (<[l := d ∪ deref h l]> (objects h)) (next_loc h).

End Store.

(** ** config.py *)

Record config := Config {
  OPENAI_API_KEY : string;
  GOOGLE_AI_API_KEY : string;
  GROQ_API_KEY : string;
  DEFAULT_LLM_PROVIDER : string
}.

(** ** database.py: the two tables, newest row last *)

Module Database.
Import Text Store.

Record conversation := Conversation {
  c_session_id : string;
  c_user_input : string;
  c_chatbot_response : string;
  c_agent : string
}.

Record order := Order {
  o_session_id : string;
  o_title : value;
  o_description : value;
  o_product_name : value;
  o_quantity : value;
  o_brand_preference : value;
  o_additional_details : string
}.

Record t := Db { conversations : list conversation; orders : list order }.

Definition empty : t := Db [] [].

(** What SQLite does when a statement runs. *)
Inductive fault :=
| NoFault
| ConnectFails (cause : string)
| ExecuteFails (cause : string).

(** An integer is bound to a statement as a signed 64-bit value. *)
Definition binds (v : value) : bool :=
  match v with
  | VStr _ => true
  | VInt z => (- 2 ^ 63 <=? z) && (z <? 2 ^ 63)
  end.

(** [json.dumps(order_data.get('additional_details', {}))] *)
Definition additional_details (d : dict) : string :=
  match d !! "additional_details" with
  | Some v => Json.encode_value v
  | None => "{}"
  end.

End Database.

(** ** agents.py: the session and its three agents *)

Inductive exn :=
| KeyError (key : string)
| TypeError
| OverflowError
| DatabaseError (cause : string).

Inductive result (A : Type) :=
| Ret (a : A)
| Raise (e : exn).
Arguments Ret {A} a.
Arguments Raise {A} e.

Inductive agent_key := MainAgent | GenericOrderAgent | BulkOrderAgent.

#[global] Instance agent_key_eq_dec : EqDecision agent_key.
Proof. solve_decision. Defined.

(** [name in self.agents], with the key found *)
Definition key_of_name (name : string) : option agent_key :=
  if String.eqb name "MainAgent" then Some MainAgent
  else if String.eqb name "GenericOrderAgent" then Some GenericOrderAgent
  else if String.eqb name "BulkOrderAgent" then Some BulkOrderAgent
  else None.

(** An [AgentExecutor], by the chat client it was built on.  Its tool list
    is the agent's, which is never empty. *)
Record executor := Executor { exec_llm : LLM.client }.

(** What [self.agent_executor.invoke(...)] and [result.get("output", {})]
    do inside the [try]: an exception, a dict, or a value of another type.
    Tool calls the executor makes on its own account act on dicts built from
    the backend's text, never on the session's dict objects; they are not
    followed here. *)
Inductive executor_reply :=
| ExecRaises
| ExecDict (d : Store.dict)
| ExecOther.

(** The outside world during one turn. *)
Record world := World {
  llm_answer : LLM.reply;
  executor_answer : executor_reply;
  save_fault : Database.fault;
  log_fault : Database.fault
}.

(** The outside world while clients and executors are built. *)
Record build_world := BuildWorld {
  llm_constructor_raises : bool;
  executor_constructor_raises : agent_key -> bool
}.

Record agent := Agent {
  name : string;
  state : string;
  order_data : Store.loc;
  agent_executor : option executor
}.

(** The dict [AgentManager.context], by its keys. *)
Record context := Context {
  ctx_current_agent : string;
  ctx_state : string;
  ctx_order_data : option Store.loc;
  ctx_type_of_request : option string;
  ctx_next_agent : option string
}.

(** An [AgentManager] with everything it reaches: its agents, the
    [LLMManager], the database, and the dict objects.  [save_calls] lists,
    newest first, the dict object each call of [db_manager.save_order]
    was given; it is a record of the run, not a variable of the program. *)
Record manager := Manager {
  heap : Store.heap;
  db : Database.t;
  save_calls : list Store.loc;
  session_id : string;
  provider : string;
  llm : option LLM.client;
  main : agent;
  generic : agent;
  bulk : agent;
  current_agent : agent_key;
  the_context : context
}.

Definition get_agent (k : agent_key) (m : manager) : agent :=
  match k with
  | MainAgent => main m
  | GenericOrderAgent => generic m
  | BulkOrderAgent => bulk m
  end.

Definition with_heap (f : Store.heap -> Store.heap) (m : manager) : manager :=
  Manager (f (heap m)) (db m) (save_calls m) (session_id m) (provider m) (llm m)
          (main m) (generic m) (bulk m) (current_agent m) (the_context m).

Definition with_db (f : Database.t -> Database.t) (m : manager) : manager :=
  Manager (heap m) (f (db m)) (save_calls m) (session_id m) (provider m) (llm m)
          (main m) (generic m) (bulk m) (current_agent m) (the_context m).

Definition with_save_calls (f : list Store.loc -> list Store.loc) (m : manager) : manager :=
  Manager (heap m) (db m) (f (save_calls m)) (session_id m) (provider m) (llm m)
          (main m) (generic m) (bulk m) (current_agent m) (the_context m).

Definition with_llm (p : string) (c : option LLM.client) (m : manager) : manager :=
  Manager (heap m) (db m) (save_calls m) (session_id m) p c
          (main m) (generic m) (bulk m) (current_agent m) (the_context m).

Definition with_agent (k : agent_key) (f : agent -> agent) (m : manager) : manager :=
  match k with
  | MainAgent =>
      Manager (heap m) (db m) (save_calls m) (session_id m) (provider m) (llm m)
              (f (main m)) (generic m) (bulk m) (current_agent m) (the_context m)
  | GenericOrderAgent =>
      Manager (heap m) (db m) (save_calls m) (session_id m) (provider m) (llm m)
              (main m) (f (generic m)) (bulk m) (current_agent m) (the_context m)
  | BulkOrderAgent =>
      Manager (heap m) (db m) (save_calls m) (session_id m) (provider m) (llm m)
              (main m) (generic m) (f (bulk m)) (current_agent m) (the_context m)
  end.

Definition with_current_agent (k : agent_key) (m : manager) : manager :=
  Manager (heap m) (db m) (save_calls m) (session_id m) (provider m) (llm m)
          (main m) (generic m) (bulk m) k (the_context m).

Definition with_context (f : context -> context) (m : manager) : manager :=
  Manager (heap m) (db m) (save_calls m) (session_id m) (provider m) (llm m)
          (main m) (generic m) (bulk m) (current_agent m) (f (the_context m)).

Definition set_state (s : string) (a : agent) : agent :=
  Agent (name a) s (order_data a) (agent_executor a).
Definition set_order_data (l : Store.loc) (a : agent) : agent :=
  Agent (name a) (state a) l (agent_executor a).
Definition set_executor (e : option executor) (a : agent) : agent :=
  Agent (name a) (state a) (order_data a) e.

Definition set_ctx_current_agent (s : string) (c : context) : context :=
  Context s (ctx_state c) (ctx_order_data c) (ctx_type_of_request c) (ctx_next_agent c).
Definition set_ctx_state (s : string) (c : context) : context :=
  Context (ctx_current_agent c) s (ctx_order_data c) (ctx_type_of_request c) (ctx_next_agent c).
Definition set_ctx_order_data (l : Store.loc) (c : context) : context :=
  Context (ctx_current_agent c) (ctx_state c) (Some l) (ctx_type_of_request c) (ctx_next_agent c).
Definition set_ctx_next_agent (n : option string) (c : context) : context :=
  Context (ctx_current_agent c) (ctx_state c) (ctx_order_data c) (ctx_type_of_request c) n.

(** *** Statements: state passing, with exceptions that keep the state
    reached when they were raised *)

Definition M (A : Type) : Type := manager -> result A * manager.

#[global] Instance M_ret : MRet M := fun A a m => (Ret a, m).
#[global] Instance M_bind : MBind M := fun A B f c m =>
  match c m with
  | (Ret a, m') => f a m'
  | (Raise e, m') => (Raise e, m')
  end.

Definition raise {A} (e : exn) : M A := fun m => (Raise e, m).
Definition gets {A} (f : manager -> A) : M A := fun m => (Ret (f m), m).
Definition modify (f : manager -> manager) : M unit := fun m => (Ret tt, f m).

(** [{}] *)
Definition new_dict : M Store.loc := fun m =>
  let '(l, h) := Store.alloc ∅ (heap m) in (Ret l, with_heap (fun _ => h) m).

Definition read_dict (l : Store.loc) : M Store.dict :=
  gets (fun m => Store.deref (heap m) l).

(** [d.get(k, default)] *)
Definition dict_get (d : Store.dict) (k : string) (dflt : value) : value :=
  default dflt (d !! k).

(** [d[k]] *)
Definition dict_item (d : Store.dict) (k : string) : M value :=
  match d !! k with
  | Some v => mret v
  | None => raise (KeyError k)
  end.

Definition self (k : agent_key) : M agent := gets (get_agent k).

(** [self.order_data[k] = v] *)
Definition order_data_setitem (k : agent_key) (key : string) (v : value) : M unit :=
  a ← self k;
  modify (with_heap (Store.setitem (order_data a) key v)).

(** *** DatabaseManager *)

Definition log_conversation (w : world)
    (sid user_input chatbot_response agent_name : string) : M unit :=
  match log_fault w with
  | Database.NoFault =>
      modify (with_db (fun d =>
        Database.Db
          (Database.conversations d
             ++ [Database.Conversation sid user_input chatbot_response agent_name])
          (Database.orders d)))
  | Database.ConnectFails cause | Database.ExecuteFails cause =>
      raise (DatabaseError cause)
  end.

(** [save_order(session_id, order_data)], [order_data] being the object at
    [l]; returns [cursor.lastrowid]. *)
Definition save_order (w : world) (sid : string) (l : Store.loc) : M nat :=
  modify (with_save_calls (cons l));;
  match save_fault w with
  | Database.ConnectFails cause => raise (DatabaseError cause)
  | _ =>
      d ← read_dict l;
      let details := Database.additional_details d in
      title ← dict_item d "title";
      description ← dict_item d "description";
      product_name ← dict_item d "product_name";
      quantity ← dict_item d "quantity";
      let brand := dict_get d "brand_preference" (VStr EmptyString) in
      if negb (forallb Database.binds [title; description; product_name; quantity; brand])
      then raise OverflowError
      else
        match save_fault w with
        | Database.ExecuteFails cause => raise (DatabaseError cause)
        | _ =>
            modify (with_db (fun d =>
              Database.Db (Database.conversations d)
                (Database.orders d
                   ++ [Database.Order sid title description product_name quantity
                         brand details])));;
            gets (fun m => length (Database.orders (db m)))
        end
  end.

(** *** BaseAgent *)

Definition log_interaction (k : agent_key) (w : world)
    (user_input response : string) : M unit :=
  a ← self k;
  sid ← gets session_id;
  log_conversation w sid user_input response (name a).

(** [generate_final_output], on the dict [self.order_data] refers to *)
Definition generate_final_output (d : Store.dict) : string :=
  if decide (d = ∅) then "No order data available"
  else
    Json.dumps_indent2
      [ ("title", dict_get d "title" (VStr EmptyString));
        ("description", dict_get d "description" (VStr EmptyString));
        ("product_name", dict_get d "product_name" (VStr EmptyString));
        ("quantity", dict_get d "quantity" (VInt 0));
        ("brand_preference", dict_get d "brand_preference" (VStr EmptyString)) ].

(** [_initialize_agent]: a new executor when a chat client is there and
    building it does not raise; otherwise the attribute keeps its value. *)
Definition _initialize_agent (bw : build_world) (k : agent_key) (m : manager) : manager :=
  match llm m with
  | Some c =>
      if executor_constructor_raises bw k then m
      else with_agent k (set_executor (Some (Executor c))) m
  | None => m
  end.

(** *** MainAgent *)

Module Main.

Definition process_message (w : world) (user_input : string) : M string :=
  a ← self MainAgent;
  response ←
    (if String.eqb (state a) "waiting_for_title" then
       order_data_setitem MainAgent "title" (VStr user_input);;
       modify (with_agent MainAgent (set_state "waiting_for_description"));;
       modify (with_context (set_ctx_current_agent (name a)));;
       modify (with_context (set_ctx_state "waiting_for_description"));;
       modify (with_context (set_ctx_order_data (order_data a)));;
       mret "Describe the request."
     else if String.eqb (state a) "waiting_for_description" then
       order_data_setitem MainAgent "description" (VStr user_input);;
       modify (with_agent MainAgent (set_state "classifying"));;
       c ← gets the_context;
       client ← gets llm;
       let order_type :=
         LLM.classify_request client (llm_answer w) user_input
           (ctx_type_of_request c) in
       order_data_setitem MainAgent "order_type" (VStr order_type);;
       modify (with_context (set_ctx_order_data (order_data a)));;
       response ←
         (if String.eqb order_type "generic" then
            modify (with_context (set_ctx_next_agent (Some "GenericOrderAgent")));;
            mret "Classified as generic order. Handing off to Generic Order Agent..."
          else
            modify (with_context (set_ctx_next_agent (Some "BulkOrderAgent")));;
            mret "Classified as bulk order. Handing off to Bulk Order Agent...");
       modify (with_context (set_ctx_current_agent (name a)));;
       modify (with_context (set_ctx_state "handing_off"));;
       mret response
     else
       modify (with_agent MainAgent (set_state "waiting_for_title"));;
       l ← new_dict;
       modify (with_agent MainAgent (set_order_data l));;
       modify (with_context (set_ctx_state "waiting_for_title"));;
       modify (with_context (set_ctx_order_data l));;
       mret "Please provide a title for this order.");
  log_interaction MainAgent w user_input response;;
  mret response.

End Main.

(** *** GenericOrderAgent and BulkOrderAgent

    The two classes have the same methods line for line; they differ in
    the literals gathered here. *)

Record vocabulary := Vocabulary {
  v_key : agent_key;
  v_asking : string;
  v_collecting : string;
  v_confirming_prefix : string;
  v_confirming_suffix : string;
  v_specify : string;
  v_summary_head : string;
  v_preference_label : string;
  v_saved : string;
  v_help : string;
  v_tool_default : Z;
  v_tool_saved : string;
  v_tool_error : string
}.

Definition generic_vocabulary : vocabulary := {|
  v_key := GenericOrderAgent;
  v_asking := "asking_brand_preference";
  v_collecting := "collecting_brand";
  v_confirming_prefix := "Confirming order for ";
  v_confirming_suffix := ". Any brand or vendor preference?";
  v_specify := "Please specify the brand or vendor preference.";
  v_summary_head := "Here's the summary of your order:";
  v_preference_label := "Brand Preference: ";
  v_saved := "Order confirmed and saved!";
  v_help := "I'm here to help with your order. What would you like to order?";
  v_tool_default := 1;
  v_tool_saved := "Order saved successfully with ID: ";
  v_tool_error := "Error saving order: "
|}.

Definition bulk_vocabulary : vocabulary := {|
  v_key := BulkOrderAgent;
  v_asking := "asking_supplier_preference";
  v_collecting := "collecting_supplier";
  v_confirming_prefix := "Confirming bulk order of ";
  v_confirming_suffix := ". Any supplier preference?";
  v_specify := "Please specify the supplier preference.";
  v_summary_head := "Here's the summary of your bulk order:";
  v_preference_label := "Supplier Preference: ";
  v_saved := "Bulk order confirmed and saved!";
  v_help := "I'm here to help with your bulk order. What would you like to order?";
  v_tool_default := 100;
  v_tool_saved := "Bulk order saved successfully with ID: ";
  v_tool_error := "Error saving bulk order: "
|}.

Module OrderAgent.
Import Text.

(** [" ".join(words[1:3])] when there are three words, else the text *)
Definition product_name_of (description : string) : string :=
  let words := split description in
  if (3 <=? length words)%nat then join " " (take 2 (drop 1 words))
  else description.

(** The tools [extract_order_details] and [extract_bulk_order_details],
    which the agents offer to the executor. *)
Definition extract_details_tool (v : vocabulary) (description : string) : Store.dict :=
  let quantity :=
    match search_digits description with
    | Some group1 => int_of_digits group1
    | None => v_tool_default v
    end in
  {[ "product_name" := VStr (product_name_of description);
     "quantity" := VInt quantity ]}.

(** [str(e)] of an exception [save_order] raises *)
Definition str_of_exn (e : exn) : string :=
  match e with
  | KeyError key => "'" +:+ key +:+ "'"
  | TypeError => "expected string or bytes-like object"
  | OverflowError => "Python int too large to convert to SQLite INTEGER"
  | DatabaseError cause => cause
  end.

(** The tools [save_order] and [save_bulk_order]: the database call
    inside [try], the exception turned into the reply. *)
Definition save_order_tool (v : vocabulary) (w : world) (l : Store.loc) : M string :=
  fun m =>
    match save_order w (session_id m) l m with
    | (Ret order_id, m') => (Ret (v_tool_saved v +:+ str_of_int (Z.of_nat order_id)), m')
    | (Raise e, m') => (Ret (v_tool_error v +:+ str_of_exn e), m')
    end.

(** [_fallback_extraction(description)]; a description that is not a text
    makes [re.search] raise. *)
Definition _fallback_extraction (k : agent_key) (description : value) : M unit :=
  match description with
  | VStr text =>
      match search_digits text with
      | Some group1 =>
          order_data_setitem k "quantity" (VInt (int_of_digits group1))
      | None => mret tt
      end;;
      order_data_setitem k "product_name" (VStr (product_name_of text))
  | VInt _ => raise TypeError
  end.

(** [_generate_order_summary], the [strip] of the literal done *)
Definition _generate_order_summary (v : vocabulary) (d : Store.dict) : string :=
  v_summary_head v +:+ nl +:+ nl
  +:+ "Title: " +:+ str (dict_get d "title" (VStr "N/A")) +:+ nl
  +:+ "Description: " +:+ str (dict_get d "description" (VStr "N/A")) +:+ nl
  +:+ "Product: " +:+ str (dict_get d "product_name" (VStr "N/A")) +:+ nl
  +:+ "Quantity: " +:+ str (dict_get d "quantity" (VStr "N/A")) +:+ nl
  +:+ v_preference_label v +:+ str (dict_get d "brand_preference" (VStr "None")) +:+ nl
  +:+ nl +:+ "Please confirm if this is correct (yes/no).".

Definition final_reply (v : vocabulary) (final_output : string) : string :=
  v_saved v +:+ nl +:+ nl +:+ "📋 **Final Output:**" +:+ nl
  +:+ "```json" +:+ nl +:+ final_output +:+ nl +:+ "```" +:+ nl +:+ nl
  +:+ "Is there anything else you'd like to order?".

Definition summary (v : vocabulary) : M string :=
  a ← self (v_key v);
  d ← read_dict (order_data a);
  mret (_generate_order_summary v d).

Definition set_my_state (v : vocabulary) (s : string) : M unit :=
  modify (with_agent (v_key v) (set_state s)).

Definition process_message (v : vocabulary) (w : world) (user_input : string) : M string :=
  let k := v_key v in
  c ← gets the_context;
  match ctx_order_data c with
  | Some l => modify (with_agent k (set_order_data l))
  | None => mret tt
  end;;
  a ← self k;
  response ←
    (if String.eqb (state a) "collecting_details" then
       d ← read_dict (order_data a);
       let description := dict_get d "description" (VStr EmptyString) in
       match agent_executor a with
       | Some _ =>
           match executor_answer w with
           | ExecDict extracted_data =>
               modify (with_heap (Store.update (order_data a) extracted_data))
           | ExecOther => mret tt
           | ExecRaises => _fallback_extraction k description
           end
       | None => _fallback_extraction k description
       end;;
       set_my_state v (v_asking v);;
       d ← read_dict (order_data a);
       mret (v_confirming_prefix v
             +:+ str (dict_get d "quantity" (VStr EmptyString)) +:+ " "
             +:+ str (dict_get d "product_name" (VStr "items"))
             +:+ v_confirming_suffix v)
     else if String.eqb (state a) (v_asking v) then
       if mem (lower user_input) ["yes"; "yeah"; "yep"; "sure"] then
         set_my_state v (v_collecting v);;
         mret (v_specify v)
       else
         order_data_setitem k "brand_preference" (VStr "None");;
         set_my_state v "confirming";;
         summary v
     else if String.eqb (state a) (v_collecting v) then
       order_data_setitem k "brand_preference" (VStr user_input);;
       set_my_state v "confirming";;
       summary v
     else if String.eqb (state a) "confirming" then
       if mem (lower user_input) ["yes"; "yeah"; "yep"; "sure"; "confirm"; "ok"] then
         sid ← gets session_id;
         save_order w sid (order_data a);;
         d ← read_dict (order_data a);
         let final_output := generate_final_output d in
         set_my_state v "collecting_details";;
         l ← new_dict;
         modify (with_agent k (set_order_data l));;
         modify (with_context (set_ctx_next_agent (Some "MainAgent")));;
         mret (final_reply v final_output)
       else
         mret "Let me know if you want to make any changes to the order."
     else
       set_my_state v "collecting_details";;
       mret (v_help v));
  a ← self k;
  modify (with_context (set_ctx_current_agent (name a)));;
  modify (with_context (set_ctx_state (state a)));;
  modify (with_context (set_ctx_order_data (order_data a)));;
  log_interaction k w user_input response;;
  mret response.

End OrderAgent.

(** *** LLMManager and AgentManager *)

Module AgentManager.
Import Text.

Definition nonempty (s : string) : bool := negb (is_empty s).

(** [_initialize_llm] *)
Definition _initialize_llm (cfg : config) (bw : build_world) (provider : string)
    : option LLM.client :=
  let build c := if llm_constructor_raises bw then None else Some c in
  if String.eqb provider "openai" && nonempty (OPENAI_API_KEY cfg)
  then build LLM.ChatOpenAI
  else if String.eqb provider "google" && nonempty (GOOGLE_AI_API_KEY cfg)
  then build LLM.ChatGoogleGenerativeAI
  else if String.eqb provider "groq" && nonempty (GROQ_API_KEY cfg)
  then build LLM.ChatGroq
  else None.

Definition initial_context (l : Store.loc) : context :=
  Context "MainAgent" "waiting_for_title" (Some l) None None.

(** [AgentManager(db_manager, session_id, llm_provider)]; each agent's
    constructor runs [_initialize_agent] on an executor attribute that
    starts as [None]. *)
Definition init (cfg : config) (bw : build_world) (database : Database.t)
    (sid : string) (llm_provider : option string) : manager :=
  let provider :=
    match llm_provider with
    | Some p => if is_empty p then DEFAULT_LLM_PROVIDER cfg else p
    | None => DEFAULT_LLM_PROVIDER cfg
    end in
  let client := _initialize_llm cfg bw provider in
  let '(l_main, h1) := Store.alloc ∅ Store.empty in
  let '(l_generic, h2) := Store.alloc ∅ h1 in
  let '(l_bulk, h3) := Store.alloc ∅ h2 in
  let '(l_context, h4) := Store.alloc ∅ h3 in
  foldl (fun acc k => _initialize_agent bw k acc)
    (Manager h4 database [] sid provider client
       (Agent "Orchestrator" "waiting_for_title" l_main None)
       (Agent "Generic" "collecting_details" l_generic None)
       (Agent "Bulk" "collecting_details" l_bulk None)
       MainAgent (initial_context l_context))
    [MainAgent; GenericOrderAgent; BulkOrderAgent].

Definition reset_tokens : list string :=
  ["start over"; "reset"; "new order"; "restart"].

Definition starting_fresh : string :=
  "Starting fresh! Please provide a title for your order.".

(** [self.agents[self.current_agent].process_message(user_input, self.context)] *)
Definition dispatch (k : agent_key) (w : world) (user_input : string) : M string :=
  match k with
  | MainAgent => Main.process_message w user_input
  | GenericOrderAgent => OrderAgent.process_message generic_vocabulary w user_input
  | BulkOrderAgent => OrderAgent.process_message bulk_vocabulary w user_input
  end.

Definition process_message (w : world) (user_input : string) : M string :=
  if mem (lower user_input) reset_tokens then
    modify (with_current_agent MainAgent);;
    l ← new_dict;
    modify (with_context (fun _ => initial_context l));;
    mret starting_fresh
  else
    k ← gets current_agent;
    response ← dispatch k w user_input;
    c ← gets the_context;
    match ctx_next_agent c with
    | Some next_agent =>
        match key_of_name next_agent with
        | Some k' =>
            modify (with_current_agent k');;
            modify (with_context (set_ctx_current_agent next_agent));;
            modify (with_context (set_ctx_next_agent None))
        | None => mret tt
        end
    | None => mret tt
    end;;
    mret response.

(** [get_current_agent_name] *)
Definition get_current_agent_name (m : manager) : string :=
  name (get_agent (current_agent m) m).

(** [LLMManager.switch_provider] *)
Definition switch_provider (cfg : config) (bw : build_world) (new_provider : string)
    (m : manager) : manager :=
  with_llm new_provider (_initialize_llm cfg bw new_provider) m.

(** [switch_llm_provider]; assigning the shared [LLMManager] to each agent
    again changes nothing. *)
Definition switch_llm_provider (cfg : config) (bw : build_world) (new_provider : string)
    (m : manager) : manager :=
  let m1 := switch_provider cfg bw new_provider m in
  foldl (fun acc k => _initialize_agent bw k acc) m1
        [MainAgent; GenericOrderAgent; BulkOrderAgent].

(** A conversation: the turns in order, each with what the world does
    during it.  A turn that raises leaves the state it reached; the caller
    goes on with the next turn. *)
Fixpoint run (turns : list (world * string)) (m : manager) : manager :=
  match turns with
  | [] => m
  | (w, user_input) :: rest => run rest (process_message w user_input m).2
  end.

End AgentManager.

(** ** Sessions *)

(** What the router holds: the active handler and the context, the order
    dict of the context by its contents. *)
Record router_state := RouterState {
  r_active : agent_key;
  r_context_agent : string;
  r_phase : string;
  r_record : option Store.dict;
  r_type_of_request : option string;
  r_next_agent : option string
}.

Definition router_of (m : manager) : router_state :=
  let c := the_context m in
  RouterState (current_agent m) (ctx_current_agent c) (ctx_state c)
    (Store.deref (heap m) <$> ctx_order_data c)
    (ctx_type_of_request c) (ctx_next_agent c).

(** The state every reset leads to. *)
Definition fresh_router : router_state :=
  RouterState MainAgent "MainAgent" "waiting_for_title" (Some ∅) None None.

(** What a handler holds: its phase and its order dict by contents. *)
Definition handler_of (k : agent_key) (m : manager) : string * Store.dict :=
  (state (get_agent k m), Store.deref (heap m) (order_data (get_agent k m))).

(** The states a session goes through: built by the constructor, then
    any turns and provider switches, under any behaviour of the world. *)
Inductive reachable : manager -> Prop :=
| reachable_init cfg bw database sid llm_provider :
    reachable (AgentManager.init cfg bw database sid llm_provider)
| reachable_turn m w user_input :
    reachable m -> reachable (AgentManager.process_message w user_input m).2
| reachable_switch m cfg bw new_provider :
    reachable m -> reachable (AgentManager.switch_llm_provider cfg bw new_provider m).

(** Every reference held is to an allocated object. *)
Definition allocated (m : manager) : Prop :=
  let n := Store.next_loc (heap m) in
  (order_data (main m) < n)%nat /\ (order_data (generic m) < n)%nat
  /\ (order_data (bulk m) < n)%nat
  /\ exists l, ctx_order_data (the_context m) = Some l /\ (l < n)%nat.

(** The dict objects [save_order] was given during [turns], newest first. *)
Definition saved_during (turns : list (world * string)) (m : manager) : list Store.loc :=
  take (length (save_calls (AgentManager.run turns m)) - length (save_calls m))
       (save_calls (AgentManager.run turns m)).

(** *** Assertions on runs *)

(** [Q] holds of the result and the state [c] leaves when run from [m]. *)
Definition wp {A} (c : M A) (m : manager) (Q : result A -> manager -> Prop) : Prop :=
  Q (c m).1 (c m).2.

(** The phases in which the orchestrator goes on writing to its own dict. *)
Definition awaiting (phase : string) : bool :=
  String.eqb phase "waiting_for_title" || String.eqb phase "waiting_for_description".

(** The dict objects below [n] are out of use: the context refers to a
    later one, the orchestrator will write to a later one, and every save
    since [old] was given a later one. *)
Definition dropped (n : Store.loc) (old : list Store.loc) (m : manager) : Prop :=
  (n <= Store.next_loc (heap m))%nat
  /\ (exists l, ctx_order_data (the_context m) = Some l /\ (n <= l)%nat)
  /\ (awaiting (state (main m)) = true -> (n <= order_data (main m))%nat)
  /\ exists new, save_calls m = (new ++ old)%list /\ Forall (fun l => (n <= l)%nat) new.

(** No handoff is pending, and when a specialised handler is active the
    orchestrator is in the phase it hands off in. *)
Definition settled (m : manager) : Prop :=
  ctx_next_agent (the_context m) = None
  /\ (current_agent m <> MainAgent -> state (main m) = "classifying").

(** The sessions in which every write to the conversation log succeeded. *)
Inductive reachable_logged : manager -> Prop :=
| logged_init cfg bw database sid llm_provider :
    reachable_logged (AgentManager.init cfg bw database sid llm_provider)
| logged_turn m w user_input :
    reachable_logged m -> log_fault w = Database.NoFault ->
    reachable_logged (AgentManager.process_message w user_input m).2
| logged_switch m cfg bw new_provider :
    reachable_logged m ->
    reachable_logged (AgentManager.switch_llm_provider cfg bw new_provider m).

(** *** The worlds and sessions of the examples *)

Module Scenario.

(** No API key configured: every [LLMManager] falls back to the rules. *)
Definition no_keys : config := Config EmptyString EmptyString EmptyString "openai".

Definition calm_build : build_world := BuildWorld false (fun _ => false).

(** SQLite works; the backend and the executor, were they asked, raise. *)
Definition calm : world :=
  World LLM.Raises ExecRaises Database.NoFault Database.NoFault.

Definition save_fails (cause : string) : world :=
  World LLM.Raises ExecRaises (Database.ExecuteFails cause) Database.NoFault.

Definition log_fails (cause : string) : world :=
  World LLM.Raises ExecRaises Database.NoFault (Database.ExecuteFails cause).

Definition fresh_session : manager :=
  AgentManager.init no_keys calm_build Database.empty "session" None.

Definition calmly (inputs : list string) : list (world * string) :=
  (fun user_input => (calm, user_input)) <$> inputs.

Definition six_turns : list string :=
  [ "I need 10 wooden desks"; "Wooden Desk Order";
    "10 wooden desks for the new conference room."; "Yes"; "UrbanCraft"; "Yes" ].

Definition expected_order : Database.order :=
  Database.Order "session" (VStr "Wooden Desk Order")
    (VStr "10 wooden desks for the new conference room.")
    (VStr "wooden desks") (VInt 10) (VStr "UrbanCraft") "{}".

End Scenario.

(** The canonical final output in the words of its contract: an object
    with the five keys in this order, the quantity an integer literal, the
    other values string literals, written with an indent of two. *)
Definition canonical_text (title description product_name : string) (quantity : Z)
    (brand_preference : string) : string :=
  "{" +:+ Text.nl
  +:+ "  " +:+ Json.encode_string "title" +:+ ": " +:+ Json.encode_string title
  +:+ "," +:+ Text.nl
  +:+ "  " +:+ Json.encode_string "description" +:+ ": " +:+ Json.encode_string description
  +:+ "," +:+ Text.nl
  +:+ "  " +:+ Json.encode_string "product_name" +:+ ": " +:+ Json.encode_string product_name
  +:+ "," +:+ Text.nl
  +:+ "  " +:+ Json.encode_string "quantity" +:+ ": " +:+ str_of_int quantity
  +:+ "," +:+ Text.nl
  +:+ "  " +:+ Json.encode_string "brand_preference" +:+ ": "
  +:+ Json.encode_string brand_preference
  +:+ Text.nl +:+ "}".

(** ** The code around the claims *)

(** *** category_finder.py *)

Module CategoryFinder.
Import Text.

Definition bulk_keywords : list string :=
  [ "bulk"; "wholesale"; "reselling"; "business"; "company"; "office";
    "event"; "conference"; "marathon"; "onboarding"; "employee"; "team";
    "hundred"; "thousand"; "500"; "1000"; "large quantity"; "mass order" ].

Definition generic_keywords : list string :=
  [ "personal"; "home"; "individual"; "single"; "one"; "few"; "small";
    "desk"; "lamp"; "furniture"; "electronics"; "personal use" ].

Fixpoint any_keyword (keywords : list string) (text : string) : bool :=
  match keywords with
  | [] => false
  | keyword :: rest =>
      if contains keyword text then true else any_keyword rest text
  end.

Definition _rule_based_classification
    (description : string) (type_of_request : option string) : string :=
  let description_lower := lower description in
  if any_keyword bulk_keywords description_lower then "bulk"
  else if any_keyword generic_keywords description_lower then "generic"
  else
    match search_digits description with
    | Some group1 =>
        let quantity := int_of_digits group1 in
        if 100 <=? quantity then "bulk"
        else if quantity <=? 50 then "generic"
        else "generic"
    | None => "generic"
    end.

(** [CategoryFinderTool.classify_request]; [client] tells whether
    [self.client] is set, [answer] what the completion call does. *)
Definition classify_request (client : bool) (answer : LLM.reply)
    (description : option string) (type_of_request : option string) : string :=
  match description with
  | None => "generic"
  | Some text =>
      if is_empty text then "generic"
      else if negb client then _rule_based_classification text type_of_request
      else
        match answer with
        | LLM.Content reply_text =>
            let result := lower (strip reply_text) in
            if mem result ["generic"; "bulk"] then result
            else _rule_based_classification text type_of_request
        | LLM.Raises => _rule_based_classification text type_of_request
        end
  end.

End CategoryFinder.

(** *** llm_manager.py: what is reported about the provider *)

(** The model names of config.py. *)
Record model_names := ModelNames {
  DEFAULT_MODEL : string;
  GOOGLE_MODEL : string;
  GROQ_MODEL : string
}.

Record provider_info := ProviderInfo {
  info_provider : string;
  info_model : string;
  info_available : bool;
  info_api_key_configured : bool
}.

Module LLMManager.
Import Text.

Definition _get_model_name (names : model_names) (provider : string) : string :=
  if String.eqb provider "openai" then DEFAULT_MODEL names
  else if String.eqb provider "google" then GOOGLE_MODEL names
  else if String.eqb provider "groq" then GROQ_MODEL names
  else "Unknown".

Definition _is_api_key_configured (cfg : config) (provider : string) : bool :=
  if String.eqb provider "openai" then negb (is_empty (OPENAI_API_KEY cfg))
  else if String.eqb provider "google" then negb (is_empty (GOOGLE_AI_API_KEY cfg))
  else if String.eqb provider "groq" then negb (is_empty (GROQ_API_KEY cfg))
  else false.

(** [get_provider_info], which [AgentManager.get_llm_info] returns *)
Definition get_provider_info (cfg : config) (names : model_names) (m : manager)
    : provider_info :=
  ProviderInfo (provider m) (_get_model_name names (provider m))
    (bool_decide (llm m <> None)) (_is_api_key_configured cfg (provider m)).

(** [generate_response]; [answer] is what the backend does if it is asked. *)
Definition generate_response (client : option LLM.client) (answer : LLM.reply) : string :=
  match client with
  | None => "I'm sorry, I'm having trouble processing your request right now."
  | Some _ =>
      match answer with
      | LLM.Content text => strip text
      | LLM.Raises => "I'm sorry, I encountered an error while processing your request."
      end
  end.

End LLMManager.

(** The sessions of one configuration: config.py is read once. *)
Inductive reachable_under (cfg : config) : manager -> Prop :=
| under_init bw database sid llm_provider :
    reachable_under cfg (AgentManager.init cfg bw database sid llm_provider)
| under_turn m w user_input :
    reachable_under cfg m ->
    reachable_under cfg (AgentManager.process_message w user_input m).2
| under_switch m bw new_provider :
    reachable_under cfg m ->
    reachable_under cfg (AgentManager.switch_llm_provider cfg bw new_provider m).

(** *** main.py: reading the final output back from a reply *)

Module Ui.
Import Text.

Fixpoint drop (n : nat) (s : string) : string :=
  match n, s with
  | O, _ => s
  | S n', String _ s' => drop n' s'
  | S _, EmptyString => EmptyString
  end.

Fixpoint take (n : nat) (s : string) : string :=
  match n, s with
  | O, _ => EmptyString
  | S n', String c s' => String c (take n' s')
  | S _, EmptyString => EmptyString
  end.

(** Where [needle] first starts in [hay]. *)
Fixpoint index_of (needle hay : string) : option nat :=
  if String.prefix needle hay then Some O
  else
    match hay with
    | EmptyString => None
    | String _ hay' => S <$> index_of needle hay'
    end.

(** [hay.find(needle, start)] for a start that is not negative *)
Definition find (needle hay : string) (start : nat) : Z :=
  match index_of needle (drop start hay) with
  | Some i => Z.of_nat (start + i)
  | None => -1
  end.

(** [message[start:end]] for indices that are not negative *)
Definition slice (message : string) (start stop : nat) : string :=
  take (stop - start) (drop start message).

Definition final_output_marker : string := "📋 **Final Output:**".

(** [extract_final_output_from_message]: the parsed object, or [None].
    Offsets count the characters of the model's texts; the function only
    compares them with one another and slices with them. *)
Definition extract_final_output_from_message (message : string)
    : option (list (string * value)) :=
  if contains final_output_marker message then
    let start := find "```json" message 0 + 7 in
    let stop := find "```" message (Z.to_nat start) in
    if (6 <? start) && (start <? stop)
    then Json.loads (strip (slice message (Z.to_nat start) (Z.to_nat stop)))
    else None
  else None.

End Ui.

(** *** Names for what the handlers compare with *)

Definition affirmative_tokens : list string := ["yes"; "yeah"; "yep"; "sure"].

Definition confirmation_tokens : list string :=
  ["yes"; "yeah"; "yep"; "sure"; "confirm"; "ok"].

Definition vocabulary_of (k : agent_key) : vocabulary :=
  match k with
  | BulkOrderAgent => bulk_vocabulary
  | _ => generic_vocabulary
  end.

Definition main_phases : list string :=
  ["waiting_for_title"; "waiting_for_description"; "classifying"].

Definition order_phases (v : vocabulary) : list string :=
  ["collecting_details"; v_asking v; v_collecting v; "confirming"].

(** Every handler is in one of the phases its branches name. *)
Definition phases_closed (m : manager) : Prop :=
  In (state (main m)) main_phases
  /\ In (state (generic m)) (order_phases generic_vocabulary)
  /\ In (state (bulk m)) (order_phases bulk_vocabulary).

(** No character of the text is white space. *)
Definition spaceless (w : string) : bool :=
  forallb (fun c => negb (Text.is_space c)) (list_ascii_of_string w).

(** The row [save_order] writes for a dict that has the four keys. *)
Definition order_row (sid : string) (d : Store.dict) : option Database.order :=
  title ← d !! "title";
  description ← d !! "description";
  product_name ← d !! "product_name";
  quantity ← d !! "quantity";
  Some (Database.Order sid title description product_name quantity
          (dict_get d "brand_preference" (VStr EmptyString))
          (Database.additional_details d)).

Definition row_binds (row : Database.order) : bool :=
  forallb Database.binds
    [ Database.o_title row; Database.o_description row;
      Database.o_product_name row; Database.o_quantity row;
      Database.o_brand_preference row ].

(** * Properties *)

(** ** Text *)

Section TextFacts.
Import Text.

Lemma append_cons (c : ascii) (s t : string) :
  String c s +:+ t = String c (s +:+ t).
Proof. reflexivity. Qed.

Lemma append_nil (t : string) : EmptyString +:+ t = t.
Proof. reflexivity. Qed.

Lemma prefix_spec (k s : string) :
  String.prefix k s = true <-> exists post, s = k +:+ post.
Proof.
  revert s. induction k as [|a k IH]; intros s; simpl.
  - destruct s; split; eauto.
  - destruct s as [|b s]; simpl.
    + split; [discriminate | intros [post H]; discriminate].
    + destruct (ascii_dec a b) as [->|Hne].
      * rewrite IH. split; intros [post H]; exists post;
          rewrite append_cons in *; congruence.
      * split; [discriminate | intros [post H]; rewrite append_cons in H; congruence].
Qed.

Lemma contains_spec (k s : string) : contains k s = true <-> occurs k s.
Proof.
  unfold occurs. induction s as [|c s IH].
  - cbn [contains]. rewrite orb_false_r, prefix_spec. split.
    + intros [post H]. exists EmptyString, post. exact H.
    + intros (pre & post & H). destruct pre.
      * eauto.
      * rewrite append_cons in H. discriminate.
  - cbn [contains]. rewrite orb_true_iff, IH, prefix_spec. split.
    + intros [[post H] | (pre & post & H)].
      * exists EmptyString, post. exact H.
      * exists (String c pre), post. rewrite append_cons. congruence.
    + intros (pre & post & H). destruct pre as [|c' pre].
      * left. eauto.
      * right. exists pre, post. rewrite append_cons in H. congruence.
Qed.

Lemma any_keyword_spec (keywords : list string) (text : string) :
  LLM.any_keyword keywords text = true
  <-> Exists (fun k => occurs k text) keywords.
Proof.
  induction keywords as [|k ks IH]; simpl.
  - rewrite Exists_nil. split; [discriminate | tauto].
  - rewrite Exists_cons, <- IH, <- contains_spec.
    destruct (contains k text); intuition congruence.
Qed.

Lemma search_digits_none (s : string) :
  search_digits s = None <-> has_digit s = false.
Proof.
  unfold has_digit. induction s as [|c s IH]; simpl; [tauto|].
  destruct (is_digit c); simpl; [split; discriminate | exact IH].
Qed.

End TextFacts.

(** ** The classifier *)

(** C10: the rules never look at the routing hint, so the label they give is
    the same for any two hints; and without a backend [classify_request] is
    those rules. *)
Theorem rule_based_ignores_hint (description : string) (hint1 hint2 : option string) :
  LLM._rule_based_classification description hint1
  = LLM._rule_based_classification description hint2
  /\ (forall answer1 answer2,
        LLM.classify_request None answer1 description hint1
        = LLM.classify_request None answer2 description hint2).
Proof. split; reflexivity. Qed.

Lemma rule_based_two_labels (description : string) (hint : option string) :
  LLM._rule_based_classification description hint = "generic"
  \/ LLM._rule_based_classification description hint = "bulk".
Proof.
  unfold LLM._rule_based_classification.
  repeat case_match; auto.
Qed.

(** C5: whatever the description and the hint, and whether the backend is
    absent, raises, or answers anything at all, [classify_request] returns
    the text "generic" or the text "bulk". *)
Theorem classify_request_total (llm : option LLM.client) (answer : LLM.reply)
    (description : string) (hint : option string) :
  LLM.classify_request llm answer description hint = "generic"
  \/ LLM.classify_request llm answer description hint = "bulk".
Proof.
  unfold LLM.classify_request.
  destruct llm as [c|]; [|apply rule_based_two_labels].
  destruct answer as [|text]; [apply rule_based_two_labels|].
  destruct (Text.mem _ _) eqn:Hmem; [|apply rule_based_two_labels].
  unfold Text.mem in Hmem. simpl in Hmem.
  rewrite orb_false_r, orb_true_iff, !String.eqb_eq in Hmem. exact Hmem.
Qed.

(** C6: the rules fire in a fixed order.  A bulk keyword anywhere in the
    lowercased description gives "bulk", whatever else the description
    holds; failing that, a generic keyword gives "generic"; failing both,
    the first integer of the description decides, "bulk" from 100 up and
    "generic" up to 50; in what is left (51 to 99, or no integer) the answer
    is "generic". *)
Theorem rule_based_priority (description : string) (hint : option string) :
  let text := Text.lower description in
  let bulk_word := Exists (fun k => Text.occurs k text) LLM.bulk_keywords in
  let generic_word := Exists (fun k => Text.occurs k text) LLM.generic_keywords in
  let label := LLM._rule_based_classification description hint in
  (bulk_word -> label = "bulk")
  /\ (~ bulk_word -> generic_word -> label = "generic")
  /\ (~ bulk_word -> ~ generic_word ->
      forall quantity, Text.first_integer description = Some quantity ->
        (100 <= quantity -> label = "bulk")
        /\ (quantity <= 50 -> label = "generic")
        /\ (51 <= quantity <= 99 -> label = "generic"))
  /\ (~ bulk_word -> ~ generic_word ->
      Text.first_integer description = None -> label = "generic").
Proof.
  intros text bulk_word generic_word label.
  subst bulk_word generic_word label text.
  rewrite <- !any_keyword_spec.
  unfold LLM._rule_based_classification, Text.first_integer.
  destruct (LLM.any_keyword LLM.bulk_keywords _);
    [repeat split; intros; congruence|].
  destruct (LLM.any_keyword LLM.generic_keywords _);
    [repeat split; intros; congruence|].
  destruct (Text.search_digits description) as [group1|]; simpl.
  - repeat split; try congruence; intros; simplify_eq;
      repeat case_match; try reflexivity; lia.
  - repeat split; intros; congruence.
Qed.

Lemma rule_based_priority_witness :
  LLM._rule_based_classification "500 small desk lamps for the office" None = "bulk"
  /\ LLM._rule_based_classification "a small desk lamp" None = "generic"
  /\ LLM._rule_based_classification "120 widgets" None = "bulk"
  /\ LLM._rule_based_classification "40 widgets" None = "generic"
  /\ LLM._rule_based_classification "75 widgets" None = "generic"
  /\ LLM._rule_based_classification EmptyString None = "generic".
Proof.
  pose proof (rule_based_priority "500 small desk lamps for the office" None) as (H1 & _).
  pose proof (rule_based_priority "a small desk lamp" None) as (_ & H2 & _).
  pose proof (rule_based_priority "120 widgets" None) as (_ & _ & H3 & _).
  pose proof (rule_based_priority "40 widgets" None) as (_ & _ & H4 & _).
  pose proof (rule_based_priority "75 widgets" None) as (_ & _ & H5 & _).
  pose proof (rule_based_priority EmptyString None) as (_ & _ & _ & H6).
  repeat split; reflexivity.
Defined.

(** ** The final output *)

Section JsonFacts.
Import Text Json.

Lemma append_assoc (s t u : string) : (s +:+ t) +:+ u = s +:+ (t +:+ u).
Proof.
  induction s as [|c s IH]; [reflexivity|].
  rewrite !append_cons. congruence.
Qed.

Lemma length_append (s t : string) :
  String.length (s +:+ t) = (String.length s + String.length t)%nat.
Proof.
  induction s as [|c s IH]; [reflexivity|].
  rewrite append_cons. simpl. congruence.
Qed.

Lemma scan_encoded_char (c : ascii) (k : string) :
  scan_string (encode_char c +:+ k) = push c (scan_string k).
Proof. destruct c as [[] [] [] [] [] [] [] []]; reflexivity. Qed.

Lemma scan_encoded_body (t rest : string) :
  scan_string (encode_body t +:+ String dquote rest) = Some (t, rest).
Proof.
  induction t as [|c t IH]; [reflexivity|].
  cbn [encode_body]. rewrite append_assoc, scan_encoded_char, IH. reflexivity.
Qed.

Lemma encode_string_append (t rest : string) :
  encode_string t +:+ rest = String dquote (encode_body t +:+ String dquote rest).
Proof.
  unfold encode_string. rewrite append_cons, append_assoc. reflexivity.
Qed.

Lemma all_digits_uint (d : Decimal.uint) :
  all_digits (NilEmpty.string_of_uint d) = true.
Proof. induction d; simpl; auto. Qed.

Lemma number_run_uint (d : Decimal.uint) (c : ascii) (r : string) :
  (is_digit c || is_minus c) = false ->
  number_run (NilEmpty.string_of_uint d +:+ String c r)
  = (NilEmpty.string_of_uint d, String c r).
Proof.
  intros Hc. induction d; cbn [NilEmpty.string_of_uint];
    rewrite ?append_cons, ?append_nil; cbn [number_run];
    rewrite ?IHd; try reflexivity.
  rewrite Hc. reflexivity.
Qed.

Lemma number_run_int (z : Z) (c : ascii) (r : string) :
  (is_digit c || is_minus c) = false ->
  number_run (str_of_int z +:+ String c r) = (str_of_int z, String c r).
Proof.
  intros Hc. unfold str_of_int, NilEmpty.string_of_int.
  destruct (Z.to_int z) as [d|d].
  - apply number_run_uint, Hc.
  - rewrite append_cons. cbn [number_run].
    rewrite number_run_uint by exact Hc. reflexivity.
Qed.

Lemma positive_literal (p : positive) :
  is_natural_literal (NilEmpty.string_of_uint (Pos.to_uint p)) = true.
Proof.
  pose proof (DecimalPos.Unsigned.to_of (Pos.to_uint p)) as Hnorm.
  rewrite DecimalPos.Unsigned.of_to in Hnorm. cbn [N.to_uint] in Hnorm.
  pose proof (DecimalPos.Unsigned.to_uint_nonzero p) as Hnz.
  pose proof (DecimalPos.Unsigned.to_uint_nonnil p) as Hnn.
  destruct (Pos.to_uint p) as [|d|d|d|d|d|d|d|d|d|d] eqn:E;
    try (cbn; rewrite ?all_digits_uint; reflexivity).
  - congruence.
  - exfalso. rewrite DecimalFacts.unorm_D0 in Hnorm.
    destruct (Decimal.uint_eq_dec d Decimal.Nil) as [->|Hd]; [congruence|].
    pose proof (DecimalFacts.nb_digits_unorm d Hd) as Hle.
    rewrite <- Hnorm in Hle. cbn in Hle. lia.
Qed.

Lemma integer_literal (z : Z) : is_integer_literal (str_of_int z) = true.
Proof.
  destruct z as [|p|p]; [reflexivity| |].
  - unfold str_of_int. cbn [Z.to_int NilEmpty.string_of_int].
    pose proof (positive_literal p) as H.
    destruct (NilEmpty.string_of_uint (Pos.to_uint p)) as [|c s] eqn:E;
      [discriminate|].
    cbn [is_integer_literal].
    destruct (is_minus c) eqn:Hm; [|exact H].
    unfold is_minus in Hm. apply Nat.eqb_eq in Hm.
    cbn [is_natural_literal] in H. unfold is_digit in H.
    rewrite Hm in H. discriminate.
  - unfold str_of_int. cbn [Z.to_int NilEmpty.string_of_int].
    cbn [is_integer_literal]. apply positive_literal.
Qed.

Lemma int_of_str_of_int (z : Z) :
  NilEmpty.int_of_string (str_of_int z) = Some (Z.to_int z).
Proof. apply NilEmpty.isi. Qed.

Lemma scan_encoded_value (v : value) (c : ascii) (r : string) :
  ends_number c = true ->
  scan_value (encode_value v +:+ String c r) = Some (v, String c r).
Proof.
  intros Hc. unfold ends_number in Hc.
  apply andb_true_iff in Hc as [Hrun Hfloat].
  apply negb_true_iff in Hrun, Hfloat.
  destruct v as [t|z]; cbn [encode_value].
  - rewrite encode_string_append. cbn [scan_value].
    change (code dquote =? 34)%nat with true. cbn iota.
    rewrite scan_encoded_body. reflexivity.
  - pose proof (integer_literal z) as Hlit.
    pose proof (number_run_int z c r Hrun) as Hnum.
    destruct (str_of_int z) as [|c0 s0] eqn:E; [discriminate|].
    rewrite append_cons in *. cbn [scan_value].
    destruct (code c0 =? 34)%nat eqn:Hq.
    { apply Nat.eqb_eq in Hq. exfalso.
      cbn [is_integer_literal is_natural_literal] in Hlit.
      unfold is_minus, is_digit in Hlit. rewrite Hq in Hlit.
      discriminate. }
    rewrite Hnum, Hlit. cbn [starts_float_tail]. rewrite Hfloat.
    cbn [negb andb]. rewrite <- E, int_of_str_of_int, DecimalZ.of_to.
    reflexivity.
Qed.

Lemma skip_ws_encoded_value (v : value) (rest : string) :
  skip_ws (encode_value v +:+ rest) = encode_value v +:+ rest.
Proof.
  destruct v as [t|z]; cbn [encode_value].
  - rewrite encode_string_append. reflexivity.
  - pose proof (integer_literal z) as Hlit.
    destruct (str_of_int z) as [|c0 s0] eqn:E; [discriminate|].
    rewrite append_cons. cbn [skip_ws].
    destruct (is_ws c0) eqn:Hw; [|reflexivity].
    exfalso. unfold is_ws in Hw.
    cbn [is_integer_literal is_natural_literal] in Hlit.
    unfold is_minus, is_digit in Hlit.
    rewrite !orb_true_iff, !Nat.eqb_eq in Hw.
    destruct Hw as [[[Hw|Hw]|Hw]|Hw]; rewrite Hw in Hlit; discriminate.
Qed.

Lemma scan_encoded_member (kv : string * value) (c : ascii) (r : string) :
  ends_number c = true ->
  scan_member (encode_member kv +:+ String c r) = Some (kv, String c r).
Proof.
  intros Hc. destruct kv as [k v]. unfold encode_member, scan_member.
  cbn [fst snd].
  rewrite append_assoc, encode_string_append. cbn [expect].
  change (code dquote =? 34)%nat with true. cbn iota. cbn [mbind option_bind].
  rewrite scan_encoded_body. cbn [mbind option_bind].
  rewrite append_assoc.
  change (skip_ws (": " +:+ encode_value v +:+ String c r))
    with (": " +:+ encode_value v +:+ String c r).
  change (expect 58 (": " +:+ encode_value v +:+ String c r))
    with (Some (" " +:+ encode_value v +:+ String c r)).
  cbn [mbind option_bind].
  change (skip_ws (" " +:+ encode_value v +:+ String c r))
    with (skip_ws (encode_value v +:+ String c r)).
  rewrite skip_ws_encoded_value, scan_encoded_value by exact Hc.
  reflexivity.
Qed.

Lemma encode_member_head (kv : string * value) (rest : string) :
  encode_member kv +:+ rest
  = String dquote (encode_body kv.1 +:+ String dquote (": " +:+ encode_value kv.2 +:+ rest)).
Proof.
  unfold encode_member. rewrite append_assoc, encode_string_append, append_assoc.
  reflexivity.
Qed.

Lemma tail_text_head (items : list (string * value)) :
  exists c r, tail_text items = String c r /\ ends_number c = true.
Proof. destruct items; eexists _, _; split; reflexivity. Qed.

Lemma scan_members_tail (items : list (string * value)) (fuel : nat) :
  (length items < fuel)%nat ->
  scan_members fuel (tail_text items) = Some (items, EmptyString).
Proof.
  revert fuel. induction items as [|kv items IH]; intros [|fuel] Hfuel;
    try (simpl in Hfuel; lia).
  - reflexivity.
  - cbn [tail_text scan_members].
    change (skip_ws ("," +:+ nl +:+ "  " +:+ encode_member kv +:+ tail_text items))
      with ("," +:+ nl +:+ "  " +:+ encode_member kv +:+ tail_text items).
    change ("," +:+ nl +:+ "  " +:+ encode_member kv +:+ tail_text items)
      with (String "," (nl +:+ "  " +:+ encode_member kv +:+ tail_text items)).
    cbn iota.
    change (code "," =? 125)%nat with false.
    change (code "," =? 44)%nat with true. cbn iota.
    change (skip_ws (nl +:+ "  " +:+ encode_member kv +:+ tail_text items))
      with (skip_ws (encode_member kv +:+ tail_text items)).
    rewrite (encode_member_head kv). cbn [skip_ws].
    change (is_ws dquote) with false. cbn iota.
    rewrite <- (encode_member_head kv).
    destruct (tail_text_head items) as (c & r & Htail & Hc).
    rewrite Htail, scan_encoded_member by exact Hc.
    cbn [mbind option_bind]. rewrite <- Htail, IH by (simpl in Hfuel; lia).
    reflexivity.
Qed.

Lemma tail_text_length (items : list (string * value)) :
  (length items < String.length (tail_text items))%nat.
Proof.
  induction items as [|kv items IH]; [simpl; lia|].
  cbn [tail_text]. rewrite !length_append. simpl in *. lia.
Qed.

Lemma join_members (kv : string * value) (items : list (string * value)) :
  join ("," +:+ nl +:+ "  ") (encode_member <$> (kv :: items)) +:+ nl +:+ "}"
  = encode_member kv +:+ tail_text items.
Proof.
  revert kv. induction items as [|kv' items IH]; intros kv; [reflexivity|].
  change (join ("," +:+ nl +:+ "  ") (encode_member <$> kv :: kv' :: items))
    with (encode_member kv +:+ ("," +:+ nl +:+ "  ")
          +:+ join ("," +:+ nl +:+ "  ") (encode_member <$> kv' :: items)).
  rewrite !append_assoc, IH. reflexivity.
Qed.

Lemma dumps_cons (kv : string * value) (items : list (string * value)) :
  dumps_indent2 (kv :: items)
  = "{" +:+ nl +:+ "  " +:+ encode_member kv +:+ tail_text items.
Proof.
  unfold dumps_indent2. rewrite <- join_members. reflexivity.
Qed.

(** Reading back what [json.dumps(..., indent=2)] wrote gives the items
    again, in their order and with their types. *)
Lemma loads_dumps (items : list (string * value)) :
  loads (dumps_indent2 items) = Some items.
Proof.
  destruct items as [|kv items]; [reflexivity|].
  rewrite dumps_cons. unfold loads, scan_object.
  change (skip_ws ("{" +:+ nl +:+ "  " +:+ encode_member kv +:+ tail_text items))
    with (String "{" (nl +:+ "  " +:+ encode_member kv +:+ tail_text items)).
  cbn [expect]. change (code "{" =? 123)%nat with true. cbn iota.
  cbn [mbind option_bind].
  change (skip_ws (nl +:+ "  " +:+ encode_member kv +:+ tail_text items))
    with (skip_ws (encode_member kv +:+ tail_text items)).
  rewrite (encode_member_head kv). cbn [skip_ws].
  change (is_ws dquote) with false. cbn iota.
  change (code dquote =? 125)%nat with false. cbn iota.
  rewrite <- (encode_member_head kv).
  destruct (tail_text_head items) as (c & r & Htail & Hc).
  rewrite Htail, scan_encoded_member by exact Hc.
  cbn [mbind option_bind]. rewrite <- Htail.
  rewrite scan_members_tail by apply tail_text_length.
  reflexivity.
Qed.

End JsonFacts.

(** C8: for an order dict that holds the five fields, the titles and names
    as texts and the quantity as an integer, the final output is the
    canonical text (the five keys in the order title, description,
    product_name, quantity, brand_preference; the quantity a bare integer
    literal, every other value a string literal), and reading that text back
    as JSON gives the five fields again, in that order, each with its value
    and its type. *)
Theorem final_output_round_trip (d : Store.dict)
    (title description product_name brand_preference : string) (quantity : Z) :
  d !! "title" = Some (VStr title) ->
  d !! "description" = Some (VStr description) ->
  d !! "product_name" = Some (VStr product_name) ->
  d !! "quantity" = Some (VInt quantity) ->
  d !! "brand_preference" = Some (VStr brand_preference) ->
  generate_final_output d
  = canonical_text title description product_name quantity brand_preference
  /\ Json.loads (generate_final_output d)
     = Some [ ("title", VStr title); ("description", VStr description);
              ("product_name", VStr product_name); ("quantity", VInt quantity);
              ("brand_preference", VStr brand_preference) ].
Proof.
  intros Ht Hd Hp Hq Hb.
  assert (generate_final_output d
          = Json.dumps_indent2
              [ ("title", VStr title); ("description", VStr description);
                ("product_name", VStr product_name); ("quantity", VInt quantity);
                ("brand_preference", VStr brand_preference) ]) as ->.
  { unfold generate_final_output, dict_get.
    destruct (decide (d = ∅)) as [->|_]; [rewrite lookup_empty in Ht; discriminate|].
    rewrite Ht, Hd, Hp, Hq, Hb. reflexivity. }
  split; [|apply loads_dumps].
  rewrite dumps_cons. unfold canonical_text. cbn [Json.tail_text].
  unfold Json.encode_member. cbn [fst snd Json.encode_value].
  rewrite !append_assoc. reflexivity.
Qed.

Lemma final_output_round_trip_witness :
  let d : Store.dict :=
    {[ "title" := VStr "Wooden Desk Order";
       "description" := VStr "10 wooden desks for the new conference room.";
       "product_name" := VStr "wooden desks";
       "quantity" := VInt 10;
       "brand_preference" := VStr "UrbanCraft" ]} in
  Json.loads (generate_final_output d)
  = Some [ ("title", VStr "Wooden Desk Order");
           ("description", VStr "10 wooden desks for the new conference room.");
           ("product_name", VStr "wooden desks"); ("quantity", VInt 10);
           ("brand_preference", VStr "UrbanCraft") ].
Proof.
  intros d.
  apply (final_output_round_trip d "Wooden Desk Order"
           "10 wooden desks for the new conference room." "wooden desks"
           "UrbanCraft" 10); vm_compute; reflexivity.
Defined.

(** ** Switching the provider *)

Lemma switch_llm_provider_keeps (cfg : config) (bw : build_world)
    (new_provider : string) (m : manager) :
  let m' := AgentManager.switch_llm_provider cfg bw new_provider m in
  provider m' = new_provider
  /\ llm m' = AgentManager._initialize_llm cfg bw new_provider
  /\ current_agent m' = current_agent m
  /\ the_context m' = the_context m
  /\ (forall k, state (get_agent k m') = state (get_agent k m)
                /\ order_data (get_agent k m') = order_data (get_agent k m)
                /\ name (get_agent k m') = name (get_agent k m))
  /\ heap m' = heap m
  /\ db m' = db m
  /\ save_calls m' = save_calls m
  /\ session_id m' = session_id m.
Proof.
  unfold AgentManager.switch_llm_provider, AgentManager.switch_provider,
    _initialize_agent.
  cbn [foldl with_llm llm].
  destruct (AgentManager._initialize_llm cfg bw new_provider) as [c|];
    cbn [with_llm llm];
    repeat (destruct (executor_constructor_raises bw _)); cbn;
    (split; [reflexivity|]; split; [reflexivity|]; split; [reflexivity|];
     split; [reflexivity|]; split; [|repeat split; reflexivity];
     intros []; cbn; repeat split; reflexivity).
Qed.

(** C9: [switch_llm_provider] builds the chat client of the new provider
    again and touches nothing of the conversation: the active handler, the
    context, every handler's phase, name and order dict, the dict objects,
    the database and the record of saves are what they were. *)
Theorem switch_llm_provider_frame (cfg : config) (bw : build_world)
    (new_provider : string) (m : manager) :
  let m' := AgentManager.switch_llm_provider cfg bw new_provider m in
  provider m' = new_provider
  /\ llm m' = AgentManager._initialize_llm cfg bw new_provider
  /\ current_agent m' = current_agent m
  /\ the_context m' = the_context m
  /\ (forall k, state (get_agent k m') = state (get_agent k m)
                /\ order_data (get_agent k m') = order_data (get_agent k m)
                /\ name (get_agent k m') = name (get_agent k m))
  /\ heap m' = heap m
  /\ db m' = db m
  /\ save_calls m' = save_calls m
  /\ session_id m' = session_id m.
Proof. apply switch_llm_provider_keeps. Qed.

(** ** Running the handlers symbolically *)

Section Execution.

Lemma wp_bind {A B} (c : M A) (f : A -> M B) m Q :
  wp c m (fun r m' =>
            match r with
            | Ret a => wp (f a) m' Q
            | Raise e => Q (Raise e) m'
            end)
  -> wp (c ≫= f) m Q.
Proof. unfold wp, mbind, M_bind. destruct (c m) as [[a|e] m']; simpl; auto. Qed.

Lemma wp_ret {A} (a : A) m Q : Q (Ret a) m -> wp (mret a) m Q.
Proof. auto. Qed.

Lemma wp_raise {A} e m (Q : result A -> manager -> Prop) :
  Q (Raise e) m -> wp (raise e) m Q.
Proof. auto. Qed.

Lemma wp_gets {A} (f : manager -> A) m Q : Q (Ret (f m)) m -> wp (gets f) m Q.
Proof. auto. Qed.

Lemma wp_modify f m Q : Q (Ret tt) (f m) -> wp (modify f) m Q.
Proof. auto. Qed.

Lemma wp_new_dict m Q :
  Q (Ret (Store.next_loc (heap m))) (with_heap (fun h => (Store.alloc ∅ h).2) m)
  -> wp new_dict m Q.
Proof. unfold wp, new_dict. destruct m as [[objs nx] ? ? ? ? ? ? ? ? ? ?]. auto. Qed.

(** Logging changes the database at most. *)
Lemma wp_log k w i r m Q :
  (forall res d',
      Q res (Manager (heap m) d' (save_calls m) (session_id m) (provider m) (llm m)
               (main m) (generic m) (bulk m) (current_agent m) (the_context m)))
  -> wp (log_interaction k w i r) m Q.
Proof.
  intros H. unfold wp, log_interaction, self, gets, log_conversation,
    mbind, M_bind, modify, raise.
  destruct m. destruct (log_fault w); cbn; apply H.
Qed.

(** When SQLite works, logging returns. *)
Lemma wp_log_ok k w i r m Q :
  log_fault w = Database.NoFault ->
  (forall d',
      Q (Ret tt) (Manager (heap m) d' (save_calls m) (session_id m) (provider m) (llm m)
                    (main m) (generic m) (bulk m) (current_agent m) (the_context m)))
  -> wp (log_interaction k w i r) m Q.
Proof.
  intros Hw H. unfold wp, log_interaction, self, gets, log_conversation,
    mbind, M_bind, modify, raise.
  destruct m. rewrite Hw. cbn. apply H.
Qed.

(** Saving changes the database at most, and is recorded. *)
Lemma wp_save w sid l m Q :
  (forall res d',
      Q res (Manager (heap m) d' (l :: save_calls m) (session_id m) (provider m) (llm m)
               (main m) (generic m) (bulk m) (current_agent m) (the_context m)))
  -> wp (save_order w sid l) m Q.
Proof.
  intros H. unfold wp, save_order, mbind, M_bind, modify, raise, read_dict,
    gets, dict_item, mret, M_ret.
  destruct m; cbn.
  repeat (match goal with
          | |- context [if ?b then _ else _] => destruct b
          | |- context [match ?x with Some _ => _ | None => _ end] => destruct x
          | |- context [match ?x with Database.NoFault => _ | _ => _ end] => destruct x
          end; cbn); apply H.
Qed.

End Execution.

Ltac norm :=
  cbn [with_heap with_db with_save_calls with_llm with_agent with_current_agent
       with_context set_state set_order_data set_executor get_agent
       set_ctx_current_agent set_ctx_state set_ctx_order_data set_ctx_next_agent
       AgentManager.initial_context
       heap db save_calls session_id provider llm main generic bulk current_agent
       the_context name state order_data agent_executor
       ctx_current_agent ctx_state ctx_order_data ctx_type_of_request ctx_next_agent
       v_key v_asking v_collecting generic_vocabulary bulk_vocabulary
       Store.alloc Store.setitem Store.update Store.next_loc Store.objects fst snd];
  change (key_of_name "MainAgent") with (Some MainAgent);
  change (key_of_name "GenericOrderAgent") with (Some GenericOrderAgent);
  change (key_of_name "BulkOrderAgent") with (Some BulkOrderAgent).

Ltac wp_log_step :=
  first [ apply wp_log_ok; [assumption | intros ?]
        | apply wp_log; intros [? | ?] ? ].

Ltac wp_step :=
  lazymatch goal with
  | |- wp (mbind _ _) _ _ => apply wp_bind
  | |- wp (mret _) _ _ => apply wp_ret
  | |- wp (raise _) _ _ => apply wp_raise
  | |- wp (gets _) _ _ => apply wp_gets
  | |- wp (modify _) _ _ => apply wp_modify
  | |- wp new_dict _ _ => apply wp_new_dict
  | |- wp (log_interaction _ _ _ _) _ _ => wp_log_step
  | |- wp (save_order _ _ _) _ _ => apply wp_save; intros [? | ?] ?
  | |- wp (self _) _ _ => unfold self
  | |- wp (read_dict _) _ _ => unfold read_dict
  | |- wp (order_data_setitem _ _ _) _ _ => unfold order_data_setitem
  | |- wp (OrderAgent._fallback_extraction _ _) _ _ =>
      unfold OrderAgent._fallback_extraction
  | |- wp (OrderAgent.summary _) _ _ => unfold OrderAgent.summary
  | |- wp (OrderAgent.set_my_state _ _) _ _ => unfold OrderAgent.set_my_state
  | |- wp (if ?b then _ else _) _ _ => destruct b eqn:?
  | |- wp (match ?x with _ => _ end) _ _ => destruct x eqn:?
  end; norm.

Ltac wp_run := repeat wp_step.

(** Every path of a turn, from a state given by its fields. *)
Ltac wp_turn :=
  unfold AgentManager.process_message;
  wp_step;
  [ wp_run
  | wp_step; wp_step; wp_step;
    lazymatch goal with
    | |- wp (AgentManager.dispatch ?cur _ _) _ _ =>
        destruct cur; unfold AgentManager.dispatch;
        [ unfold Main.process_message
        | unfold OrderAgent.process_message; cbv zeta
        | unfold OrderAgent.process_message; cbv zeta ];
        wp_run
    end ].

(** ** References stay within the allocated objects *)

Lemma process_message_allocated w user_input m :
  allocated m -> allocated (AgentManager.process_message w user_input m).2.
Proof.
  destruct m as [[objs nx] d sc sid pr cl [mn ms ml me] [gn gs gl ge]
                   [bn bs bl be] cur [ca cs co ct cn]].
  unfold allocated. intros (H1 & H2 & H3 & l & H4 & H5). cbn in *. subst co.
  match goal with
  | |- context [(AgentManager.process_message w user_input ?m0).2] =>
      change (wp (AgentManager.process_message w user_input) m0
                (fun _ m' =>
                   (order_data (main m') < Store.next_loc (heap m'))%nat
                   /\ (order_data (generic m') < Store.next_loc (heap m'))%nat
                   /\ (order_data (bulk m') < Store.next_loc (heap m'))%nat
                   /\ exists l, ctx_order_data (the_context m') = Some l
                                /\ (l < Store.next_loc (heap m'))%nat))
  end.
  wp_turn; norm; repeat split; eauto with lia.
Qed.

Lemma initialize_agent_allocated bw k m :
  allocated m -> allocated (_initialize_agent bw k m).
Proof.
  unfold _initialize_agent. destruct (llm m); [|auto].
  destruct (executor_constructor_raises bw k); [auto|].
  destruct m, k; exact id.
Qed.

Lemma init_allocated cfg bw database sid llm_provider :
  allocated (AgentManager.init cfg bw database sid llm_provider).
Proof.
  unfold AgentManager.init. cbn [Store.alloc Store.empty Store.next_loc Store.objects foldl].
  repeat apply initialize_agent_allocated.
  unfold allocated; cbn. repeat split; eauto with lia.
Qed.

Lemma switch_allocated cfg bw new_provider m :
  allocated m -> allocated (AgentManager.switch_llm_provider cfg bw new_provider m).
Proof.
  pose proof (switch_llm_provider_keeps cfg bw new_provider m) as
    (_ & _ & _ & Hc & Hk & Hh & _).
  unfold allocated. cbv zeta in *.
  pose proof (Hk MainAgent) as (_ & Hm & _).
  pose proof (Hk GenericOrderAgent) as (_ & Hg & _).
  pose proof (Hk BulkOrderAgent) as (_ & Hb & _).
  cbn [get_agent] in *. rewrite Hc, Hh, Hm, Hg, Hb. auto.
Qed.

Lemma reachable_allocated m : reachable m -> allocated m.
Proof.
  induction 1;
    auto using init_allocated, process_message_allocated, switch_allocated.
Qed.

(** ** What a reset drops *)

Ltac from_awaiting H4 :=
  first
    [ lia
    | apply H4; unfold awaiting;
      repeat match goal with
             | H : String.eqb _ _ = _ |- _ => rewrite H
             end; reflexivity ].

Ltac solve_awaiting H4 :=
  let Haw := fresh "Haw" in
  intros Haw;
  first
    [ exact (H4 Haw)
    | lia
    | apply H4; unfold awaiting;
      repeat match goal with
             | H : String.eqb _ _ = _ |- _ => rewrite H
             end; reflexivity
    | cbv in Haw; discriminate Haw ].

Lemma process_message_dropped n old w user_input m :
  dropped n old m -> dropped n old (AgentManager.process_message w user_input m).2.
Proof.
  destruct m as [[objs nx] d sc sid pr cl [mn ms ml me] [gn gs gl ge]
                   [bn bs bl be] cur [ca cs co ct cn]].
  unfold dropped. intros (H1 & (l & H2 & H3) & H4 & new & H5 & H6).
  cbn in *. subst co sc.
  match goal with
  | |- context [(AgentManager.process_message w user_input ?m0).2] =>
      change (wp (AgentManager.process_message w user_input) m0
                (fun _ m' =>
                   (n <= Store.next_loc (heap m'))%nat
                   /\ (exists l, ctx_order_data (the_context m') = Some l /\ (n <= l)%nat)
                   /\ (awaiting (state (main m')) = true -> (n <= order_data (main m'))%nat)
                   /\ exists new, save_calls m' = (new ++ old)%list
                                  /\ Forall (fun l => (n <= l)%nat) new))
  end.
  wp_turn; norm;
    (split; [lia|];
     split; [eexists; split; [reflexivity|from_awaiting H4]|];
     split; [solve_awaiting H4|];
     first [ exists new; split; [reflexivity|assumption]
           | exists (l :: new); split; [reflexivity|];
             constructor; [lia|assumption] ]).
Qed.

Lemma run_dropped n old turns m :
  dropped n old m -> dropped n old (AgentManager.run turns m).
Proof.
  revert m. induction turns as [|[w user_input] turns IH]; intros m H; [exact H|].
  cbn [AgentManager.run]. apply IH, process_message_dropped, H.
Qed.

Lemma dropped_saved_during n turns m l :
  dropped n (save_calls m) (AgentManager.run turns m) -> (l < n)%nat ->
  l ∉ saved_during turns m.
Proof.
  intros (_ & _ & _ & new & Hnew & Hall) Hl. unfold saved_during.
  rewrite Hnew, length_app, Nat.add_sub, take_app_length.
  intros Hin. rewrite Forall_forall in Hall. apply Hall in Hin. lia.
Qed.

(** What a reset does, in full. *)
Lemma process_message_reset w user_input m :
  Text.mem (Text.lower user_input) AgentManager.reset_tokens = true ->
  AgentManager.process_message w user_input m
  = (Ret AgentManager.starting_fresh,
     Manager
       (Store.Heap (<[Store.next_loc (heap m) := ∅]> (Store.objects (heap m)))
                   (S (Store.next_loc (heap m))))
       (db m) (save_calls m) (session_id m) (provider m) (llm m)
       (main m) (generic m) (bulk m) MainAgent
       (AgentManager.initial_context (Store.next_loc (heap m)))).
Proof.
  intros Hreset. unfold AgentManager.process_message. rewrite Hreset.
  destruct m as [[objs nx] d sc sid pr cl mn g b cur c]. reflexivity.
Qed.

(** A reset processed while the orchestrator's own phase is "classifying"
    takes every dict object allocated so far out of use: none of them is
    given to [save_order] in any later turn, whatever the world does. *)
Lemma reset_drops_objects m w user_input turns l :
  state (main m) = "classifying" ->
  Text.mem (Text.lower user_input) AgentManager.reset_tokens = true ->
  (l < Store.next_loc (heap m))%nat ->
  l ∉ saved_during turns (AgentManager.process_message w user_input m).2.
Proof.
  intros Hmain Hreset Hl.
  apply dropped_saved_during with (n := Store.next_loc (heap m)); [|exact Hl].
  apply run_dropped.
  rewrite process_message_reset by exact Hreset.
  unfold dropped. cbn. rewrite Hmain.
  split; [lia|]. split; [eauto|]. split; [discriminate|].
  exists []. split; [reflexivity|constructor].
Qed.

(** *** Sessions whose log writes all succeed *)

Lemma process_message_settled w user_input m :
  log_fault w = Database.NoFault ->
  settled m -> settled (AgentManager.process_message w user_input m).2.
Proof.
  intros Hlog.
  destruct m as [[objs nx] d sc sid pr cl [mn ms ml me] [gn gs gl ge]
                   [bn bs bl be] cur [ca cs co ct cn]].
  unfold settled. intros (H1 & H2). cbn in *. subst cn.
  match goal with
  | |- context [(AgentManager.process_message w user_input ?m0).2] =>
      change (wp (AgentManager.process_message w user_input) m0
                (fun _ m' =>
                   ctx_next_agent (the_context m') = None
                   /\ (current_agent m' <> MainAgent -> state (main m') = "classifying")))
  end.
  wp_turn; norm;
    (split; [reflexivity|]; first [ congruence | reflexivity | exact H2 | auto ]).
Qed.

Lemma initialize_agent_settled bw k m :
  settled m -> settled (_initialize_agent bw k m).
Proof.
  unfold _initialize_agent. destruct (llm m); [|auto].
  destruct (executor_constructor_raises bw k); [auto|].
  destruct m, k; exact id.
Qed.

Lemma reachable_logged_settled m : reachable_logged m -> settled m.
Proof.
  induction 1 as [cfg bw database sid llm_provider | m w user_input _ IH Hlog
                 | m cfg bw new_provider _ IH].
  - unfold AgentManager.init.
    cbn [Store.alloc Store.empty Store.next_loc Store.objects foldl].
    repeat apply initialize_agent_settled.
    split; [reflexivity | intros []; reflexivity].
  - apply process_message_settled; assumption.
  - pose proof (switch_llm_provider_keeps cfg bw new_provider m) as
      (_ & _ & Hcur & Hc & Hk & _).
    destruct (Hk MainAgent) as (Hm & _). cbv zeta in *. cbn [get_agent] in Hm.
    unfold settled. rewrite Hcur, Hc, Hm. exact IH.
Qed.

Lemma reachable_logged_reachable m : reachable_logged m -> reachable m.
Proof. induction 1; eauto using reachable. Qed.

(** In a session whose log writes have all succeeded, a reset processed
    while the generic or the bulk handler is active discards the order dict
    in progress: no later turn gives it to [save_order]. *)
Lemma reset_discards_in_logged_sessions m w user_input turns l :
  reachable_logged m ->
  current_agent m <> MainAgent ->
  Text.mem (Text.lower user_input) AgentManager.reset_tokens = true ->
  ctx_order_data (the_context m) = Some l ->
  l ∉ saved_during turns (AgentManager.process_message w user_input m).2.
Proof.
  intros Hreach Hactive Hreset Hl.
  pose proof (reachable_logged_settled m Hreach) as (_ & Hmain).
  pose proof (reachable_allocated m (reachable_logged_reachable m Hreach)) as
    (_ & _ & _ & l' & Hl' & Hlt).
  apply reset_drops_objects; [auto | exact Hreset | congruence].
Qed.

(** ** Reset *)

Lemma reachable_run turns m : reachable m -> reachable (AgentManager.run turns m).
Proof.
  revert m. induction turns as [|[w user_input] turns IH]; intros m H; [exact H|].
  cbn [AgentManager.run]. apply IH, reachable_turn, H.
Qed.

(** C2, as the code has it: the reset tokens are matched against the
    lowercased input as typed, without trimming.  For every reachable
    session state and every input whose lowercased text is one of the four
    tokens, [process_message] answers with the fixed reply without running a
    handler (nothing is logged, nothing saved) and leaves the router with
    the orchestrator active and a context in phase "waiting_for_title" with
    an empty order dict.  A second reset from there answers the same and
    changes nothing: the router, every handler's phase and order dict, the
    database and the backend are as the first reset left them. *)
Theorem reset_post_state (m : manager) (w : world) (user_input : string) :
  reachable m ->
  Text.mem (Text.lower user_input) AgentManager.reset_tokens = true ->
  let outcome := AgentManager.process_message w user_input m in
  outcome.1 = Ret AgentManager.starting_fresh
  /\ router_of outcome.2 = fresh_router
  /\ db outcome.2 = db m
  /\ save_calls outcome.2 = save_calls m
  /\ forall w' user_input',
      Text.mem (Text.lower user_input') AgentManager.reset_tokens = true ->
      let again := AgentManager.process_message w' user_input' outcome.2 in
      again.1 = Ret AgentManager.starting_fresh
      /\ router_of again.2 = router_of outcome.2
      /\ (forall k, handler_of k again.2 = handler_of k outcome.2)
      /\ db again.2 = db outcome.2
      /\ save_calls again.2 = save_calls outcome.2
      /\ llm again.2 = llm outcome.2
      /\ provider again.2 = provider outcome.2.
Proof.
  intros Hreach Hreset outcome. subst outcome.
  apply reachable_allocated in Hreach as (Hm & Hg & Hb & _).
  rewrite process_message_reset by exact Hreset.
  assert (forall objs (l : Store.loc),
             Store.deref (Store.Heap (<[l := ∅]> objs) (S l)) l = ∅) as Hfresh.
  { intros objs l. unfold Store.deref. cbn. rewrite lookup_insert_eq. reflexivity. }
  cbn [fst snd]. split; [reflexivity|].
  split; [unfold router_of, fresh_router; cbn; rewrite Hfresh; reflexivity|].
  split; [reflexivity|]. split; [reflexivity|].
  intros w' user_input' Hreset'.
  rewrite process_message_reset by exact Hreset'.
  cbn [fst snd heap db save_calls llm provider Store.next_loc Store.objects].
  split; [reflexivity|].
  split; [unfold router_of; cbn; rewrite !Hfresh; reflexivity|].
  split; [|repeat split; reflexivity].
  intros k. unfold handler_of. f_equal.
  unfold Store.deref. cbn [heap Store.objects get_agent main generic bulk].
  rewrite lookup_insert_ne; [reflexivity|].
  destruct k; cbn [get_agent main generic bulk]; lia.
Qed.

Lemma reset_post_state_witness :
  let m := AgentManager.run
             (Scenario.calmly ["Desks"; "10 wooden desks for my room"; "go"; "yes"])
             Scenario.fresh_session in
  (AgentManager.process_message Scenario.calm "Start Over" m).1
  = Ret AgentManager.starting_fresh
  /\ router_of (AgentManager.process_message Scenario.calm "Start Over" m).2
     = fresh_router.
Proof.
  intros m.
  pose proof (reset_post_state m Scenario.calm "Start Over"
                (reachable_run _ _ (reachable_init _ _ _ _ _)) eq_refl)
    as (Hreply & Hrouter & _).
  split; assumption.
Defined.

(** C2 as stated fails: an input that is a reset token only after trimming
    is not a reset.  " reset" sent to a fresh session is taken as the title
    of an order. *)
Lemma reset_is_not_trimmed :
  Text.mem (Text.lower (Text.strip " reset")) AgentManager.reset_tokens = true
  /\ (AgentManager.process_message Scenario.calm " reset" Scenario.fresh_session).1
     = Ret "Describe the request."
  /\ router_of (AgentManager.process_message Scenario.calm " reset"
                  Scenario.fresh_session).2
     <> fresh_router
  /\ r_phase (router_of (AgentManager.process_message Scenario.calm " reset"
                           Scenario.fresh_session).2)
     = "waiting_for_description"
  /\ handler_of MainAgent
       (AgentManager.process_message Scenario.calm " reset" Scenario.fresh_session).2
     = ("waiting_for_description", {[ "title" := VStr " reset" ]}).
Proof.
  split; [vm_compute; reflexivity|].
  split; [vm_compute; reflexivity|].
  split; [intros H; apply (f_equal r_phase) in H; vm_compute in H; discriminate H|].
  split; vm_compute; reflexivity.
Qed.

(** ** The example conversation *)

(** C1 fails on the code.  In a fresh session without a backend the first
    of the six turns is taken as the title and the second as the description;
    the description "Wooden Desk Order" holds no digit, so no quantity is
    extracted, and the sixth turn raises [KeyError('quantity')] out of
    [save_order].  Nothing is persisted and the generic handler stays
    active. *)
Theorem six_turns_persist_nothing :
  let m5 := AgentManager.run (Scenario.calmly (take 5 Scenario.six_turns))
              Scenario.fresh_session in
  let last := AgentManager.process_message Scenario.calm "Yes" m5 in
  let record := Store.deref (heap m5) (order_data (generic m5)) in
  last.1 = Raise (KeyError "quantity")
  /\ Database.orders (db last.2) = []
  /\ Database.orders
       (db (AgentManager.run (Scenario.calmly Scenario.six_turns)
              Scenario.fresh_session)) = []
  /\ Database.orders
       (db (AgentManager.run (Scenario.calmly Scenario.six_turns)
              Scenario.fresh_session)) <> [Scenario.expected_order]
  /\ current_agent last.2 = GenericOrderAgent
  /\ AgentManager.get_current_agent_name last.2 = "Generic"
  /\ record !! "title" = Some (VStr "I need 10 wooden desks")
  /\ record !! "description" = Some (VStr "Wooden Desk Order")
  /\ record !! "product_name" = Some (VStr "Desk Order")
  /\ record !! "quantity" = None
  /\ record !! "brand_preference" = Some (VStr "UrbanCraft").
Proof.
  cbv zeta. repeat apply conj; try (vm_compute; reflexivity).
  vm_compute. discriminate.
Qed.

(** ** Extraction *)

(** On a description without a digit, [_fallback_extraction] writes the
    product name and leaves the quantity as it finds it. *)
Lemma fallback_without_digit (k : agent_key) (text : string) (m : manager) :
  Text.has_digit text = false ->
  let m' := (OrderAgent._fallback_extraction k (VStr text) m).2 in
  let l := order_data (get_agent k m) in
  Store.deref (heap m') l !! "quantity" = Store.deref (heap m) l !! "quantity"
  /\ Store.deref (heap m') l !! "product_name"
     = Some (VStr (OrderAgent.product_name_of text)).
Proof.
  intros Hdigit. apply search_digits_none in Hdigit.
  unfold OrderAgent._fallback_extraction. rewrite Hdigit.
  destruct m as [[objs nx] d sc sid pr cl mn g b cur c].
  destruct k;
    cbv [mbind M_bind mret M_ret order_data_setitem self gets modify with_heap
         get_agent Store.setitem heap order_data main generic bulk fst snd
         Store.deref Store.objects];
    rewrite !lookup_insert_eq; cbn [default];
    (split; [apply lookup_insert_ne; discriminate | apply lookup_insert_eq]).
Qed.

(** C3 fails on the code.  With no executor, the collecting_details turn on
    the description "need some bottles" leaves the order dict of the generic
    flow, and of the bulk flow, without a quantity; confirming such an order
    raises [KeyError('quantity')].  The defaults 1 and 100 exist only in the
    tools the agents offer to the executor.  The product name is produced
    in both flows. *)
Theorem fallback_sets_no_default_quantity :
  let g := AgentManager.run
             (Scenario.calmly ["Bottles"; "need some bottles"; "go"])
             Scenario.fresh_session in
  let b := AgentManager.run
             (Scenario.calmly ["Bottles"; "need some bottles for the office"; "go"])
             Scenario.fresh_session in
  let generic_record := Store.deref (heap g) (order_data (generic g)) in
  let bulk_record := Store.deref (heap b) (order_data (bulk b)) in
  Text.has_digit "need some bottles" = false
  /\ Text.has_digit "need some bottles for the office" = false
  /\ current_agent g = GenericOrderAgent
  /\ state (generic g) = "asking_brand_preference"
  /\ generic_record !! "quantity" = None
  /\ generic_record !! "product_name" = Some (VStr "some bottles")
  /\ current_agent b = BulkOrderAgent
  /\ state (bulk b) = "asking_supplier_preference"
  /\ bulk_record !! "quantity" = None
  /\ bulk_record !! "product_name" = Some (VStr "some bottles")
  /\ (AgentManager.process_message Scenario.calm "yes"
        (AgentManager.run (Scenario.calmly ["no"]) g)).1
     = Raise (KeyError "quantity")
  /\ (AgentManager.process_message Scenario.calm "yes"
        (AgentManager.run (Scenario.calmly ["no"]) b)).1
     = Raise (KeyError "quantity")
  /\ OrderAgent.extract_details_tool generic_vocabulary "need some bottles"
       !! "quantity" = Some (VInt 1)
  /\ OrderAgent.extract_details_tool bulk_vocabulary "need some bottles for the office"
       !! "quantity" = Some (VInt 100).
Proof. cbv zeta. repeat apply conj; vm_compute; reflexivity. Qed.

(** ** A failing save *)

(** C4 fails on the code.  The confirming branch calls [save_order] outside
    any [try]: when SQLite raises, the exception leaves [process_message]
    and no reply is produced.  The order dict, the phase and the tables are
    untouched, and confirming again once SQLite works saves the order; the
    reply "Error saving order: ..." is what the [save_order] tool returns,
    which the confirming branch does not go through. *)
Theorem save_failure_raises :
  let m := AgentManager.run
             (Scenario.calmly ["Desks"; "10 wooden desks for my room"; "go"; "no"])
             Scenario.fresh_session in
  let failed := AgentManager.process_message
                  (Scenario.save_fails "database is locked") "yes" m in
  let retried := AgentManager.process_message Scenario.calm "yes" failed.2 in
  current_agent m = GenericOrderAgent
  /\ state (generic m) = "confirming"
  /\ failed.1 = Raise (DatabaseError "database is locked")
  /\ handler_of GenericOrderAgent failed.2 = handler_of GenericOrderAgent m
  /\ router_of failed.2 = router_of m
  /\ db failed.2 = db m
  /\ Database.orders (db retried.2)
     = [ Database.Order "session" (VStr "Desks") (VStr "10 wooden desks for my room")
           (VStr "wooden desks") (VInt 10) (VStr "None") "{}" ]
  /\ (OrderAgent.save_order_tool generic_vocabulary
        (Scenario.save_fails "database is locked") (order_data (generic m)) m).1
     = Ret "Error saving order: database is locked".
Proof. cbv zeta. repeat apply conj; vm_compute; reflexivity. Qed.

(** ** A reset after a failed log write *)

(** C7 fails on the code when a log write has failed.  The write of the
    classification turn raises, so the handoff signal stays in the context;
    the next turn makes the orchestrator start over with a new dict and then
    hands that same dict to the generic handler.  A reset in
    collecting_brand replaces the context but not the orchestrator's
    reference, the orchestrator goes on writing to the dict that was in
    progress, and three turns later it is given to [save_order]. *)
Theorem reset_record_saved_after_failed_log :
  let before :=
    AgentManager.run
      [ (Scenario.calm, "Desks");
        (Scenario.log_fails "database is locked", "a chair");
        (Scenario.calm, "hello"); (Scenario.calm, "go"); (Scenario.calm, "yes") ]
      Scenario.fresh_session in
  let later := Scenario.calmly ["Chairs"; "two chairs for my room"; "Acme"; "yes"] in
  let after_reset := (AgentManager.process_message Scenario.calm "reset" before).2 in
  current_agent before = GenericOrderAgent
  /\ state (generic before) = "collecting_brand"
  /\ ctx_order_data (the_context before) = Some 4%nat
  /\ Store.deref (heap before) 4%nat = {[ "product_name" := VStr EmptyString ]}
  /\ router_of after_reset = fresh_router
  /\ saved_during later after_reset = [4%nat]
  /\ Store.deref (heap (AgentManager.run later after_reset)) 4%nat
       !! "product_name" = Some (VStr EmptyString)
  /\ Store.deref (heap (AgentManager.run later after_reset)) 4%nat
       !! "title" = Some (VStr "Chairs").
Proof. cbv zeta. repeat apply conj; vm_compute; reflexivity. Qed.

(** * The code around the claims *)

(** ** The second classifier *)

(** X1: without a completion client, [CategoryFinderTool.classify_request]
    gives every description the label that [LLMManager.classify_request]
    gives it without a backend, whatever the hints; a missing description is
    "generic"; and with a client it still answers "generic" or "bulk". *)
Theorem category_finder_agrees (description : string) (hint hint' : option string)
    (answer answer' : LLM.reply) (client : bool) :
  CategoryFinder.classify_request false answer (Some description) hint
  = LLM.classify_request None answer' description hint'
  /\ CategoryFinder.classify_request client answer None hint = "generic"
  /\ (CategoryFinder.classify_request client answer (Some description) hint = "generic"
      \/ CategoryFinder.classify_request client answer (Some description) hint = "bulk").
Proof.
  assert (forall d h, CategoryFinder._rule_based_classification d h
                      = LLM._rule_based_classification d None) as Hsame
    by reflexivity.
  split; [|split; [reflexivity|]].
  - unfold CategoryFinder.classify_request, LLM.classify_request.
    destruct description; [reflexivity|]. cbn [Text.is_empty negb]. apply Hsame.
  - unfold CategoryFinder.classify_request.
    destruct (Text.is_empty description); [auto|].
    destruct (negb client); [rewrite Hsame; apply rule_based_two_labels|].
    destruct answer as [|text]; [rewrite Hsame; apply rule_based_two_labels|].
    destruct (Text.mem _ _) eqn:Hmem; [|rewrite Hsame; apply rule_based_two_labels].
    unfold Text.mem in Hmem. simpl in Hmem.
    rewrite orb_false_r, orb_true_iff, !String.eqb_eq in Hmem. exact Hmem.
Qed.

(** ** Extraction *)

Section ExtractionFacts.
Import Text.

Lemma digit_run_digits (s : string) :
  forallb is_digit (list_ascii_of_string (digit_run s)) = true.
Proof.
  induction s as [|c s IH]; [reflexivity|]. cbn [digit_run].
  destruct (is_digit c) eqn:Hc; [|reflexivity]. cbn. rewrite Hc. exact IH.
Qed.

Lemma search_digits_digits (s group1 : string) :
  search_digits s = Some group1 ->
  forallb is_digit (list_ascii_of_string group1) = true.
Proof.
  induction s as [|c s IH]; [discriminate|]. cbn [search_digits].
  destruct (is_digit c) eqn:Hc; [|exact IH].
  intros [= <-]. cbn. rewrite Hc. apply digit_run_digits.
Qed.

Lemma digit_value_bounds (c : ascii) : is_digit c = true -> 0 <= digit_value c <= 9.
Proof.
  unfold is_digit, between, digit_value. intros H.
  apply andb_true_iff in H as [H1 H2].
  apply Nat.leb_le in H1, H2. lia.
Qed.

Lemma int_of_digits_from_ge (s : string) (acc : Z) :
  forallb is_digit (list_ascii_of_string s) = true -> 0 <= acc ->
  acc <= int_of_digits_from acc s.
Proof.
  revert acc. induction s as [|c s IH]; intros acc Hs Hacc; [cbn; lia|].
  cbn in Hs. apply andb_true_iff in Hs as [Hc Hs].
  cbn [int_of_digits_from]. pose proof (digit_value_bounds c Hc).
  specialize (IH (10 * acc + digit_value c) Hs). lia.
Qed.

Lemma spaceless_snoc (cur : string) (c : ascii) :
  spaceless cur = true -> is_space c = false -> spaceless (snoc cur c) = true.
Proof.
  unfold spaceless, snoc. intros Hcur Hc.
  induction cur as [|a cur IH].
  - rewrite append_nil. cbn [list_ascii_of_string forallb]. rewrite Hc. reflexivity.
  - rewrite append_cons. cbn [list_ascii_of_string forallb] in *.
    apply andb_true_iff in Hcur as [Ha Hcur]. rewrite Ha, IH by exact Hcur.
    reflexivity.
Qed.

Lemma snoc_nonempty (cur : string) (c : ascii) : is_empty (snoc cur c) = false.
Proof. destruct cur; reflexivity. Qed.

Lemma split_from_words (cur s : string) :
  spaceless cur = true ->
  Forall (fun w => is_empty w = false /\ spaceless w = true) (split_from cur s).
Proof.
  revert cur. induction s as [|c s IH]; intros cur Hcur; cbn [split_from].
  - destruct (is_empty cur) eqn:E; [constructor|]. repeat constructor; assumption.
  - destruct (is_space c) eqn:Hc.
    + destruct (is_empty cur) eqn:E; [apply IH; reflexivity|].
      constructor; [split; assumption | apply IH; reflexivity].
    + apply IH, spaceless_snoc; assumption.
Qed.

End ExtractionFacts.

(** X2: the integer the extraction and the rules read off a text exists
    exactly when the text holds a digit, and it is never negative: a sign in
    front of the digits is not read. *)
Theorem first_integer_not_negative (text : string) :
  match Text.first_integer text with
  | Some quantity => 0 <= quantity /\ Text.has_digit text = true
  | None => Text.has_digit text = false
  end.
Proof.
  unfold Text.first_integer.
  destruct (Text.search_digits text) as [group1|] eqn:E; cbn.
  - split.
    + apply (int_of_digits_from_ge group1 0); [|lia].
      eapply search_digits_digits, E.
    + destruct (Text.has_digit text) eqn:Hd; [reflexivity|].
      apply search_digits_none in Hd. congruence.
  - apply search_digits_none, E.
Qed.

(** X3: the product name is the description itself when it has fewer than
    three words; otherwise it is the second and the third word with one
    blank between them, and neither word is empty or holds white space. *)
Theorem product_name_shape (description : string) :
  ((length (Text.split description) < 3)%nat
   /\ OrderAgent.product_name_of description = description)
  \/ exists w1 w2 w3 rest,
       Text.split description = w1 :: w2 :: w3 :: rest
       /\ OrderAgent.product_name_of description = w2 +:+ " " +:+ w3
       /\ Text.is_empty w2 = false /\ spaceless w2 = true
       /\ Text.is_empty w3 = false /\ spaceless w3 = true.
Proof.
  unfold OrderAgent.product_name_of.
  pose proof (split_from_words EmptyString description eq_refl) as Hwords.
  fold (Text.split description) in Hwords.
  destruct (Text.split description) as [|w1 [|w2 [|w3 rest]]];
    try (left; split; [cbn; lia | reflexivity]).
  right. exists w1, w2, w3, rest.
  inversion Hwords as [|? ? _ H2]; subst.
  inversion H2 as [|? ? [He2 Hs2] H3]; subst.
  inversion H3 as [|? ? [He3 Hs3] _]; subst.
  repeat split; assumption.
Qed.

(** ** The final output of any order dict *)

(** X4: the final output of an empty order dict is a plain sentence that
    does not parse; the final output of any other dict parses to the five
    fields in their order, a missing text field read as the empty text and a
    missing quantity as 0. *)
Theorem final_output_always_five_fields (d : Store.dict) :
  Json.loads (generate_final_output d)
  = if decide (d = ∅) then None
    else Some [ ("title", dict_get d "title" (VStr EmptyString));
                ("description", dict_get d "description" (VStr EmptyString));
                ("product_name", dict_get d "product_name" (VStr EmptyString));
                ("quantity", dict_get d "quantity" (VInt 0));
                ("brand_preference", dict_get d "brand_preference" (VStr EmptyString)) ].
Proof.
  unfold generate_final_output.
  destruct (decide (d = ∅)); [reflexivity | apply loads_dumps].
Qed.

(** ** The database writes *)

Lemma save_order_cases (w : world) (sid : string) (l : Store.loc) (m : manager) :
  let out := save_order w sid l m in
  let d := Store.deref (heap m) l in
  exists dbo,
    out.2 = Manager (heap m) dbo (l :: save_calls m) (session_id m) (provider m)
              (llm m) (main m) (generic m) (bulk m) (current_agent m) (the_context m)
    /\ match out.1 with
       | Ret order_id =>
           save_fault w = Database.NoFault
           /\ exists row, order_row sid d = Some row /\ row_binds row = true
              /\ dbo = Database.Db (Database.conversations (db m))
                         (Database.orders (db m) ++ [row])
              /\ order_id = S (length (Database.orders (db m)))
       | Raise (KeyError key) =>
           dbo = db m /\ d !! key = None /\ order_row sid d = None
           /\ In key ["title"; "description"; "product_name"; "quantity"]
           /\ forall cause, save_fault w <> Database.ConnectFails cause
       | Raise OverflowError =>
           dbo = db m /\ exists row, order_row sid d = Some row /\ row_binds row = false
       | Raise (DatabaseError cause) =>
           dbo = db m
           /\ (save_fault w = Database.ConnectFails cause
               \/ (save_fault w = Database.ExecuteFails cause
                   /\ exists row, order_row sid d = Some row /\ row_binds row = true))
       | Raise TypeError => False
       end.
Proof.
  destruct m as [h d0 sc sid0 pr cl mn g b cur c].
  cbv zeta. unfold save_order, order_row, row_binds.
  destruct (save_fault w) as [|cause|cause] eqn:Hf;
    cbv [mbind M_bind mret M_ret modify raise read_dict gets dict_item
         with_save_calls with_db heap db save_calls session_id provider llm
         main generic bulk current_agent the_context fst snd option_bind];
    [| eexists; split; [reflexivity|]; split; [reflexivity|]; left; reflexivity |];
    generalize (Store.deref h l); intros d;
    (destruct (d !! "title") as [t|] eqn:Ht;
     [|eexists; split; [reflexivity|]; cbv beta iota;
       split; [reflexivity|]; split; [assumption|]; split; [reflexivity|];
       split; [cbv; tauto | discriminate]]);
    (destruct (d !! "description") as [de|] eqn:Hd;
     [|eexists; split; [reflexivity|]; cbv beta iota;
       split; [reflexivity|]; split; [assumption|]; split; [reflexivity|];
       split; [cbv; tauto | discriminate]]);
    (destruct (d !! "product_name") as [pn|] eqn:Hp;
     [|eexists; split; [reflexivity|]; cbv beta iota;
       split; [reflexivity|]; split; [assumption|]; split; [reflexivity|];
       split; [cbv; tauto | discriminate]]);
    (destruct (d !! "quantity") as [q|] eqn:Hq;
     [|eexists; split; [reflexivity|]; cbv beta iota;
       split; [reflexivity|]; split; [assumption|]; split; [reflexivity|];
       split; [cbv; tauto | discriminate]]);
    cbv beta iota;
    match goal with |- context [negb ?b] => destruct b eqn:Hb end;
    cbv beta iota delta [negb];
    eexists; (split; [reflexivity|]); cbv beta iota.
  - split; [reflexivity|]. eexists. split; [reflexivity|]. split; [exact Hb|].
    split; [reflexivity|]. cbv [Database.orders]. rewrite length_app. cbn [length]. lia.
  - split; [reflexivity|]. eexists. split; [reflexivity|]. exact Hb.
  - split; [reflexivity|]. right. split; [reflexivity|].
    eexists. split; [reflexivity|]. exact Hb.
  - split; [reflexivity|]. eexists. split; [reflexivity|]. exact Hb.
Qed.

(** X5: what [DatabaseManager.save_order] does with a dict.  It returns the
    new row's number exactly when SQLite works, the dict has the keys title,
    description, product_name and quantity, and every value binds; the row
    written then carries the session identifier, the dict's values, the
    empty text for a missing brand_preference, and is appended after the rows
    there were.  In every other case it raises (KeyError for a missing key,
    OverflowError for an integer beyond 64 bits, the SQLite error otherwise)
    and both tables are as before. *)
Theorem save_order_outcome (w : world) (sid : string) (l : Store.loc) (m : manager) :
  let out := save_order w sid l m in
  let d := Store.deref (heap m) l in
  exists dbo,
    out.2 = Manager (heap m) dbo (l :: save_calls m) (session_id m) (provider m)
              (llm m) (main m) (generic m) (bulk m) (current_agent m) (the_context m)
    /\ match out.1 with
       | Ret order_id =>
           save_fault w = Database.NoFault
           /\ exists row, order_row sid d = Some row /\ row_binds row = true
              /\ dbo = Database.Db (Database.conversations (db m))
                         (Database.orders (db m) ++ [row])
              /\ order_id = S (length (Database.orders (db m)))
       | Raise (KeyError key) =>
           dbo = db m /\ d !! key = None /\ order_row sid d = None
           /\ In key ["title"; "description"; "product_name"; "quantity"]
           /\ forall cause, save_fault w <> Database.ConnectFails cause
       | Raise OverflowError =>
           dbo = db m /\ exists row, order_row sid d = Some row /\ row_binds row = false
       | Raise (DatabaseError cause) =>
           dbo = db m
           /\ (save_fault w = Database.ConnectFails cause
               \/ (save_fault w = Database.ExecuteFails cause
                   /\ exists row, order_row sid d = Some row /\ row_binds row = true))
       | Raise TypeError => False
       end.
Proof. apply save_order_cases. Qed.

(** ** Exact steps for logging and saving *)

Lemma order_row_session sid d row : order_row sid d = Some row -> Database.o_session_id row = sid.
Proof.
  unfold order_row. intros H.
  destruct (d !! "title"); [|discriminate]. destruct (d !! "description"); [|discriminate].
  destruct (d !! "product_name"); [|discriminate]. destruct (d !! "quantity"); [|discriminate].
  cbn in H. injection H as <-. reflexivity.
Qed.

Lemma wp_log_exact k w i r m Q :
  (log_fault w = Database.NoFault ->
   Q (Ret tt)
     (Manager (heap m)
        (Database.Db
           (Database.conversations (db m)
              ++ [Database.Conversation (session_id m) i r (name (get_agent k m))])
           (Database.orders (db m)))
        (save_calls m) (session_id m) (provider m) (llm m)
        (main m) (generic m) (bulk m) (current_agent m) (the_context m))) ->
  (forall cause, log_fault w <> Database.NoFault -> Q (Raise (DatabaseError cause)) m) ->
  wp (log_interaction k w i r) m Q.
Proof.
  intros Hok Hfail. unfold wp, log_interaction, self, gets, log_conversation,
    mbind, M_bind, modify, raise.
  destruct m. destruct (log_fault w) eqn:E; cbn;
    [apply Hok; reflexivity | apply Hfail; discriminate | apply Hfail; discriminate].
Qed.

Lemma wp_save_exact w sid l m Q :
  (forall row,
      save_fault w = Database.NoFault ->
      order_row sid (Store.deref (heap m) l) = Some row ->
      row_binds row = true ->
      Q (Ret (S (length (Database.orders (db m)))))
        (Manager (heap m)
           (Database.Db (Database.conversations (db m)) (Database.orders (db m) ++ [row]))
           (l :: save_calls m) (session_id m) (provider m) (llm m)
           (main m) (generic m) (bulk m) (current_agent m) (the_context m))) ->
  (forall e,
      save_fault w <> Database.NoFault
      \/ order_row sid (Store.deref (heap m) l) = None
      \/ (exists row, order_row sid (Store.deref (heap m) l) = Some row
                      /\ row_binds row = false) ->
      Q (Raise e)
        (Manager (heap m) (db m) (l :: save_calls m) (session_id m) (provider m) (llm m)
           (main m) (generic m) (bulk m) (current_agent m) (the_context m))) ->
  wp (save_order w sid l) m Q.
Proof.
  intros Hok Hfail. unfold wp.
  destruct (save_order_cases w sid l m) as (dbo & Hstate & Hres).
  rewrite Hstate. destruct ((save_order w sid l m).1) as [order_id|[key| | |cause]].
  - destruct Hres as (Hf & row & Hrow & Hb & -> & ->). apply Hok; assumption.
  - destruct Hres as (-> & _ & Hrow & _). apply Hfail. auto.
  - destruct Hres.
  - destruct Hres as (-> & row & Hrow & Hb). apply Hfail. eauto.
  - destruct Hres as (-> & [Hf | [Hf _]]); apply Hfail; left; congruence.
Qed.



Ltac head_of t := lazymatch t with ?f _ => head_of f | _ => t end.

Ltac evaluate x :=
  let v := eval vm_compute in x in
  let h := head_of v in
  is_constructor h; change x with v.

(** A test the path already decides is rewritten; anything else is a case
    split. *)
Ltac wpx_split x :=
  first
    [ match goal with H : x = _ |- _ => rewrite H end
    | destruct x eqn:? ].

(** On a known state a comparison of literals and a lookup in a known dict
    are computed first. *)
Ltac wpx_compute x :=
  first
    [ match goal with H : x = _ |- _ => rewrite H end
    | lazymatch x with
      | String.eqb _ _ => evaluate x
      | _ !! _ => evaluate x
      | dict_get _ _ _ => evaluate x
      end
    | destruct x eqn:? ].

Ltac norm_in H :=
  cbn [with_heap with_db with_save_calls with_llm with_agent with_current_agent
       with_context set_state set_order_data set_executor get_agent
       set_ctx_current_agent set_ctx_state set_ctx_order_data set_ctx_next_agent
       heap db save_calls session_id provider llm main generic bulk current_agent
       the_context name state order_data agent_executor
       ctx_current_agent ctx_state ctx_order_data ctx_type_of_request ctx_next_agent
       Store.next_loc Store.objects fst snd] in H.

Ltac wpx_step_with resolve :=
  lazymatch goal with
  | |- wp (mbind _ _) _ _ => apply wp_bind
  | |- wp (mret _) _ _ => apply wp_ret
  | |- wp (raise _) _ _ => apply wp_raise
  | |- wp (gets _) _ _ => apply wp_gets
  | |- wp (modify _) _ _ => apply wp_modify
  | |- wp new_dict _ _ => apply wp_new_dict
  | |- wp (log_interaction _ _ _ _) _ _ =>
      apply wp_log_exact;
      [ intros ? | intros ? ?; try (exfalso; congruence) ]
  | |- wp (save_order _ _ _) _ _ =>
      apply wp_save_exact;
      [ let Hrow := fresh "Hrow" in
        intros ? ? Hrow ?; norm_in Hrow
      | let Hfail := fresh "Hfail" in
        intros ? Hfail; norm_in Hfail;
        try solve [exfalso; destruct Hfail as [?|[?|(?&?&?)]]; congruence] ]
  | |- wp (self _) _ _ => unfold self
  | |- wp (read_dict _) _ _ => unfold read_dict
  | |- wp (order_data_setitem _ _ _) _ _ => unfold order_data_setitem
  | |- wp (OrderAgent._fallback_extraction _ _) _ _ =>
      unfold OrderAgent._fallback_extraction
  | |- wp (OrderAgent.summary _) _ _ => unfold OrderAgent.summary
  | |- wp (OrderAgent.set_my_state _ _) _ _ => unfold OrderAgent.set_my_state
  | |- wp (if ?b then _ else _) _ _ => resolve b
  | |- wp (match ?x with _ => _ end) _ _ => resolve x
  end; norm.

Ltac wpx_dispatch_with resolve :=
  lazymatch goal with
  | |- wp (AgentManager.dispatch ?cur _ _) _ _ =>
      first [ is_var cur; destruct cur | idtac ];
      unfold AgentManager.dispatch; cbv iota;
      unfold Main.process_message, OrderAgent.process_message; cbv zeta;
      repeat wpx_step_with resolve
  | |- _ => idtac
  end.

(** Every path of a turn from a state given by its fields. *)
Ltac wpx_turn :=
  unfold AgentManager.process_message;
  repeat wpx_step_with wpx_split; wpx_dispatch_with wpx_split.

(** The path of a turn from a state that decides it. *)
Ltac wpx_path :=
  unfold AgentManager.process_message;
  repeat wpx_step_with wpx_compute; wpx_dispatch_with wpx_compute.

Ltac wp_goal w user_input Q :=
  match goal with
  | |- context [(AgentManager.process_message w user_input ?m0)] =>
      change (wp (AgentManager.process_message w user_input) m0 Q)
  end.

(** ** What one turn does to the tables *)

Lemma turn_effect (m : manager) (w : world) (user_input : string) :
  let out := AgentManager.process_message w user_input m in
  session_id out.2 = session_id m
  /\ (exists talk placed,
        Database.conversations (db out.2) = (Database.conversations (db m) ++ talk)%list
        /\ Database.orders (db out.2) = (Database.orders (db m) ++ placed)%list
        /\ (length talk <= 1)%nat /\ (length placed <= 1)%nat
        /\ Forall (fun c => Database.c_session_id c = session_id m) talk
        /\ Forall (fun o => Database.o_session_id o = session_id m) placed)
  /\ (forall reply,
        Text.mem (Text.lower user_input) AgentManager.reset_tokens = false ->
        out.1 = Ret reply ->
        Database.conversations (db out.2)
        = (Database.conversations (db m)
           ++ [Database.Conversation (session_id m) user_input reply
                 (AgentManager.get_current_agent_name m)])%list)
  /\ ((save_calls out.2 = save_calls m /\ Database.orders (db out.2) = Database.orders (db m))
      \/ exists l, save_calls out.2 = l :: save_calls m
                   /\ current_agent m <> MainAgent
                   /\ state (get_agent (current_agent m) m) = "confirming"
                   /\ Text.mem (Text.lower user_input) confirmation_tokens = true).
Proof.
  destruct m as [[objs nx] [cv os] sc sid pr cl [mn ms ml me] [gn gs gl ge]
                   [bn bs bl be] cur [ca cs co ct cn]].
  unfold AgentManager.get_current_agent_name.
  set (m0 := Manager _ _ _ _ _ _ _ _ _ _ _).
  change (wp (AgentManager.process_message w user_input) m0
    (fun r m' =>
       session_id m' = sid
       /\ (exists talk placed,
         Database.conversations (db m') = (cv ++ talk)%list
         /\ Database.orders (db m') = (os ++ placed)%list
         /\ (length talk <= 1)%nat /\ (length placed <= 1)%nat
         /\ Forall (fun c => Database.c_session_id c = sid) talk
         /\ Forall (fun o => Database.o_session_id o = sid) placed)
       /\ (forall reply,
        Text.mem (Text.lower user_input) AgentManager.reset_tokens = false ->
        r = Ret reply ->
        Database.conversations (db m')
        = (cv ++ [Database.Conversation sid user_input reply (name (get_agent cur m0))])%list)
       /\ ((save_calls m' = sc /\ Database.orders (db m') = os)
      \/ exists l, save_calls m' = l :: sc
                   /\ cur <> MainAgent
                   /\ state (get_agent cur m0) = "confirming"
                   /\ Text.mem (Text.lower user_input) confirmation_tokens = true))).
  subst m0.
  wpx_turn.
  all: (split; [reflexivity|]; split; [|split]).
  all: cbn [db Database.conversations Database.orders save_calls].
  all: try solve
      [ exists [], []; rewrite !app_nil_r; repeat split; auto
      | eexists [_], []; rewrite !app_nil_r; repeat split; cbn; auto
      | eexists [], [_]; rewrite !app_nil_r; repeat split; cbn; auto;
        repeat constructor; eapply order_row_session; eassumption
      | eexists [_], [_]; repeat split; cbn; auto;
        repeat constructor; eapply order_row_session; eassumption ].
  all: try solve [ intros reply Hnr Hr; first [congruence | injection Hr as <-; reflexivity] ].
  all: try solve
      [ left; split; reflexivity
      | right; eexists; split; [reflexivity|]; split; [discriminate|];
        split; [apply String.eqb_eq; assumption | assumption] ].
Qed.

(** X6: a turn never rewrites or removes a row.  It appends at most one
    conversation row and at most one order row, each under the session's
    own identifier, and it leaves that identifier alone. *)
Theorem turn_appends_rows (m : manager) (w : world) (user_input : string) :
  let m' := (AgentManager.process_message w user_input m).2 in
  session_id m' = session_id m
  /\ exists talk placed,
      Database.conversations (db m') = (Database.conversations (db m) ++ talk)%list
      /\ Database.orders (db m') = (Database.orders (db m) ++ placed)%list
      /\ (length talk <= 1)%nat /\ (length placed <= 1)%nat
      /\ Forall (fun c => Database.c_session_id c = session_id m) talk
      /\ Forall (fun o => Database.o_session_id o = session_id m) placed.
Proof.
  pose proof (turn_effect m w user_input) as (Hsid & Hrows & _). split; assumption.
Qed.

(** X7: [save_order] is called, and an order row can appear, only in a turn
    that finds the generic or the bulk handler active in phase "confirming"
    and whose lowercased input is one of yes, yeah, yep, sure, confirm, ok;
    and then it is called once. *)
Theorem save_only_on_confirmation (m : manager) (w : world) (user_input : string) :
  let m' := (AgentManager.process_message w user_input m).2 in
  (save_calls m' = save_calls m /\ Database.orders (db m') = Database.orders (db m))
  \/ exists l, save_calls m' = l :: save_calls m
               /\ current_agent m <> MainAgent
               /\ state (get_agent (current_agent m) m) = "confirming"
               /\ Text.mem (Text.lower user_input) confirmation_tokens = true.
Proof.
  pose proof (turn_effect m w user_input) as (_ & _ & _ & Hsave). exact Hsave.
Qed.

(** X8: a turn that is not a reset and that returns a reply has logged
    exactly one conversation row: the session, the input as typed, the reply
    returned, and the name of the handler that was active when the turn
    began. *)
Theorem turn_logs_reply (m : manager) (w : world) (user_input reply : string) :
  Text.mem (Text.lower user_input) AgentManager.reset_tokens = false ->
  (AgentManager.process_message w user_input m).1 = Ret reply ->
  Database.conversations (db (AgentManager.process_message w user_input m).2)
  = (Database.conversations (db m)
     ++ [Database.Conversation (session_id m) user_input reply
           (AgentManager.get_current_agent_name m)])%list.
Proof.
  pose proof (turn_effect m w user_input) as (_ & _ & Hlog & _). apply Hlog.
Qed.

Lemma turn_logs_reply_witness :
  Database.conversations
    (db (AgentManager.process_message Scenario.calm "Desks" Scenario.fresh_session).2)
  = [Database.Conversation "session" "Desks" "Describe the request." "Orchestrator"].
Proof.
  apply (turn_logs_reply Scenario.fresh_session Scenario.calm "Desks"
           "Describe the request."); vm_compute; reflexivity.
Defined.

(** ** What a turn leaves alone, and the phases *)

Lemma process_message_keeps (m : manager) (w : world) (user_input : string) :
  let m' := (AgentManager.process_message w user_input m).2 in
  llm m' = llm m
  /\ provider m' = provider m
  /\ (forall k, name (get_agent k m') = name (get_agent k m)
                /\ agent_executor (get_agent k m') = agent_executor (get_agent k m))
  /\ (phases_closed m -> phases_closed m').
Proof.
  destruct m as [[objs nx] d sc sid pr cl [mn ms ml me] [gn gs gl ge]
                   [bn bs bl be] cur [ca cs co ct cn]].
  set (m0 := Manager _ _ _ _ _ _ _ _ _ _ _).
  change (wp (AgentManager.process_message w user_input) m0
            (fun _ m' =>
               llm m' = cl /\ provider m' = pr
               /\ (forall k, name (get_agent k m') = name (get_agent k m0)
                             /\ agent_executor (get_agent k m')
                                = agent_executor (get_agent k m0))
               /\ (phases_closed m0 -> phases_closed m'))).
  subst m0. wp_turn; norm;
    (split; [reflexivity|]; split; [reflexivity|]; split;
     [ intros []; split; reflexivity
     | unfold phases_closed; cbn [main generic bulk state];
       intros (H1 & H2 & H3);
       repeat split; first [assumption | cbn; auto 8] ]).
Qed.

(** X9: no turn touches the backend: the provider, the chat client, and
    every handler's name and executor are after a turn what they were
    before it, whatever the input and whatever the world does. *)
Theorem turn_keeps_backend (m : manager) (w : world) (user_input : string) :
  let m' := (AgentManager.process_message w user_input m).2 in
  llm m' = llm m
  /\ provider m' = provider m
  /\ (forall k, name (get_agent k m') = name (get_agent k m)
                /\ agent_executor (get_agent k m') = agent_executor (get_agent k m)).
Proof.
  pose proof (process_message_keeps m w user_input) as (H1 & H2 & H3 & _).
  repeat split; try assumption; apply H3.
Qed.

(** ** Building and switching the backend *)

Lemma initialize_agent_spec bw k m :
  _initialize_agent bw k m
  = with_agent k
      (set_executor
         (match llm m with
          | Some c => if executor_constructor_raises bw k
                      then agent_executor (get_agent k m)
                      else Some (Executor c)
          | None => agent_executor (get_agent k m)
          end)) m.
Proof.
  unfold _initialize_agent.
  destruct (llm m); [destruct (executor_constructor_raises bw k)|];
    destruct m as [h d sc sid pr cl [] [] [] cur ctx], k; reflexivity.
Qed.

Lemma init_fields cfg bw database sid llm_provider :
  let m := AgentManager.init cfg bw database sid llm_provider in
  llm m = AgentManager._initialize_llm cfg bw (provider m)
  /\ state (main m) = "waiting_for_title"
  /\ state (generic m) = "collecting_details"
  /\ state (bulk m) = "collecting_details"
  /\ (forall k, agent_executor (get_agent k m)
                = match llm m with
                  | Some c => if executor_constructor_raises bw k then None
                              else Some (Executor c)
                  | None => None
                  end).
Proof.
  unfold AgentManager.init.
  cbn [Store.alloc Store.empty Store.next_loc Store.objects foldl].
  rewrite !initialize_agent_spec. norm.
  split; [reflexivity|]. split; [reflexivity|]. split; [reflexivity|].
  split; [reflexivity|]. intros []; norm;
    destruct (AgentManager._initialize_llm cfg bw _); reflexivity.
Qed.

Lemma initialize_llm_some cfg bw p c :
  AgentManager._initialize_llm cfg bw p = Some c ->
  LLMManager._is_api_key_configured cfg p = true
  /\ (p = "openai" \/ p = "google" \/ p = "groq").
Proof.
  unfold AgentManager._initialize_llm, LLMManager._is_api_key_configured,
    AgentManager.nonempty.
  destruct (String.eqb p "openai") eqn:E1.
  { apply String.eqb_eq in E1.
    destruct (negb (Text.is_empty (OPENAI_API_KEY cfg))); cbn; [auto|].
    subst p. cbn. discriminate. }
  destruct (String.eqb p "google") eqn:E2.
  { apply String.eqb_eq in E2.
    destruct (negb (Text.is_empty (GOOGLE_AI_API_KEY cfg))); cbn; [auto|].
    subst p. cbn. discriminate. }
  destruct (String.eqb p "groq") eqn:E3.
  { apply String.eqb_eq in E3.
    destruct (negb (Text.is_empty (GROQ_API_KEY cfg))); cbn; [auto|].
    discriminate. }
  cbn. discriminate.
Qed.

Lemma reachable_under_backend cfg m :
  reachable_under cfg m ->
  forall c, llm m = Some c ->
    LLMManager._is_api_key_configured cfg (provider m) = true
    /\ (provider m = "openai" \/ provider m = "google" \/ provider m = "groq").
Proof.
  induction 1 as [bw database sid llm_provider | m w user_input _ IH
                 | m bw new_provider _ IH]; intros c Hc.
  - pose proof (init_fields cfg bw database sid llm_provider) as (Hllm & _).
    cbv zeta in Hllm. rewrite Hllm in Hc. eapply initialize_llm_some, Hc.
  - pose proof (process_message_keeps m w user_input) as (Hl & Hp & _).
    cbv zeta in *. rewrite Hl in Hc. rewrite Hp. eapply IH, Hc.
  - pose proof (switch_llm_provider_keeps cfg bw new_provider m) as (Hp & Hl & _).
    cbv zeta in *. rewrite Hl in Hc. rewrite Hp. eapply initialize_llm_some, Hc.
Qed.


(** X10: what [get_llm_info] reports is consistent in every session of one
    configuration: when it says the backend is available, the API key of the
    provider is configured, the provider is one of openai, google and groq,
    and the model reported is that provider's configured model, never the
    fallback name. *)
Theorem provider_info_consistent cfg names m :
  reachable_under cfg m ->
  let info := LLMManager.get_provider_info cfg names m in
  info_available info = true ->
  info_api_key_configured info = true
  /\ (info_provider info = "openai" \/ info_provider info = "google"
      \/ info_provider info = "groq")
  /\ In (info_model info) [DEFAULT_MODEL names; GOOGLE_MODEL names; GROQ_MODEL names].
Proof.
  intros Hreach info Havail. subst info.
  unfold LLMManager.get_provider_info in *. cbn in *.
  apply bool_decide_eq_true in Havail.
  destruct (llm m) as [c|] eqn:Hc; [|congruence].
  destruct (reachable_under_backend cfg m Hreach c Hc) as (Hkey & Hprov).
  split; [exact Hkey|]. split; [exact Hprov|].
  unfold LLMManager._get_model_name.
  destruct Hprov as [-> | [-> | ->]]; cbn; auto.
Qed.


Lemma provider_info_consistent_witness :
  let cfg := Config "key" EmptyString EmptyString "openai" in
  let names := ModelNames "gpt-3.5-turbo" "gemini-pro" "llama3-8b-8192" in
  let m := AgentManager.init cfg Scenario.calm_build Database.empty "session" None in
  info_api_key_configured (LLMManager.get_provider_info cfg names m) = true.
Proof.
  intros cfg names m.
  apply (provider_info_consistent cfg names m (under_init _ _ _ _ _)).
  vm_compute. reflexivity.
Defined.

(** X11: [switch_llm_provider] never takes an executor away.  A handler
    gets a new executor when the new provider yields a chat client and the
    executor is built without error; in every other case, also when the new
    provider has no API key and the classifier falls back to the rules, the
    handler keeps the executor it had. *)
Theorem switch_never_drops_executor cfg bw new_provider m k :
  let m' := AgentManager.switch_llm_provider cfg bw new_provider m in
  agent_executor (get_agent k m')
  = match AgentManager._initialize_llm cfg bw new_provider with
    | Some c => if executor_constructor_raises bw k
                then agent_executor (get_agent k m)
                else Some (Executor c)
    | None => agent_executor (get_agent k m)
    end.
Proof.
  unfold AgentManager.switch_llm_provider, AgentManager.switch_provider.
  cbn [foldl]. rewrite !initialize_agent_spec.
  destruct m as [h d sc sid pr cl mn g b cur c]. norm.
  destruct k; norm; reflexivity.
Qed.

(** ** Invariants of a session *)

Lemma phases_closed_reachable m : reachable m -> phases_closed m.
Proof.
  induction 1 as [cfg bw database sid llm_provider | m w user_input _ IH
                 | m cfg bw new_provider _ IH].
  - pose proof (init_fields cfg bw database sid llm_provider) as (_ & Hm & Hg & Hb & _).
    cbv zeta in *. unfold phases_closed. rewrite Hm, Hg, Hb. cbn. auto 8.
  - apply process_message_keeps, IH.
  - pose proof (switch_llm_provider_keeps cfg bw new_provider m) as
      (_ & _ & _ & _ & Hk & _).
    cbv zeta in Hk. unfold phases_closed.
    destruct (Hk MainAgent) as (Hm & _), (Hk GenericOrderAgent) as (Hg & _),
      (Hk BulkOrderAgent) as (Hb & _).
    cbn [get_agent] in *. rewrite Hm, Hg, Hb. exact IH.
Qed.


(** X12: in every state a session reaches, the orchestrator is in one of
    waiting_for_title, waiting_for_description, classifying, and the generic
    and the bulk handler are each in one of their four phases: the last
    branch of the two order handlers is never taken. *)
Theorem phases_stay_closed (m : manager) : reachable m -> phases_closed m.
Proof. apply phases_closed_reachable. Qed.

Lemma phases_stay_closed_witness :
  phases_closed
    (AgentManager.run
       (Scenario.calmly ["Desks"; "10 wooden desks for my room"; "go"; "yes"])
       Scenario.fresh_session).
Proof.
  apply phases_stay_closed, reachable_run, reachable_init.
Defined.

(** X13: in every state a session reaches, the three handlers and the
    context refer to dict objects that exist, and the context always carries
    an order dict: the test for "order_data" in the context never fails. *)
Theorem references_stay_allocated (m : manager) : reachable m -> allocated m.
Proof. apply reachable_allocated. Qed.

Lemma references_stay_allocated_witness :
  allocated
    (AgentManager.run
       (Scenario.calmly ["Desks"; "10 wooden desks for my room"; "go"; "yes"])
       Scenario.fresh_session).
Proof.
  apply references_stay_allocated, reachable_run, reachable_init.
Defined.

(** X14: in a session whose log writes have all succeeded, no handoff
    signal is left in the context between turns, and whenever the generic or
    the bulk handler is active the orchestrator is in phase "classifying". *)
Theorem handoff_is_consumed (m : manager) : reachable_logged m -> settled m.
Proof. apply reachable_logged_settled. Qed.

Lemma handoff_is_consumed_witness :
  settled
    (AgentManager.process_message Scenario.calm "10 wooden desks for my room"
       (AgentManager.process_message Scenario.calm "Desks"
          Scenario.fresh_session).2).2.
Proof.
  apply handoff_is_consumed.
  repeat (apply logged_turn; [|reflexivity]). apply logged_init.
Defined.

(** X15: in a session whose log writes have all succeeded, a reset while
    the generic or the bulk handler is active discards the order dict in
    progress: no later turn gives it to [save_order], whatever the inputs
    and whatever the world does from then on. *)
Theorem reset_discards_record_when_logged (m : manager) (w : world)
    (user_input : string) (turns : list (world * string)) (l : Store.loc) :
  reachable_logged m ->
  current_agent m <> MainAgent ->
  Text.mem (Text.lower user_input) AgentManager.reset_tokens = true ->
  ctx_order_data (the_context m) = Some l ->
  l ∉ saved_during turns (AgentManager.process_message w user_input m).2.
Proof. apply reset_discards_in_logged_sessions. Qed.

Lemma reset_discards_record_when_logged_witness :
  let m := (AgentManager.process_message Scenario.calm "10 wooden desks for my room"
              (AgentManager.process_message Scenario.calm "Desks"
                 Scenario.fresh_session).2).2 in
  0%nat ∉ saved_during
            (Scenario.calmly ["Chairs"; "two chairs for my room"; "go"; "no"; "yes"])
            (AgentManager.process_message Scenario.calm "reset" m).2.
Proof.
  intros m.
  apply (reset_discards_record_when_logged m Scenario.calm "reset").
  - repeat (apply logged_turn; [|reflexivity]). apply logged_init.
  - vm_compute. discriminate.
  - vm_compute. reflexivity.
  - vm_compute. reflexivity.
Defined.
